(** * A shallow embedding of [WeatherMCPClient] (src/mcp_stdio_client.py)

    The client is a thin router in front of an MCP session: it lists the
    operations the server advertises, decides from the user's text which of
    the two weather operations to call, and renders whatever comes back as
    text.  The embedding follows the Python source method by method:

    - text is [string]; [lower], [upper], [isalpha], [strip] and [len] are
      the [str] methods of Python, on the ASCII range;
    - the local dict [location_coords] is an association list in the order
      of the source literal (the help text enumerates its keys in order);
      coordinates are binary64 floats, as in Python;
    - a method is a computation in a state-and-exception monad [M]: the state
      is the peer at the other end of the session together with the log of
      everything the client has asked of it; [try ... except Exception] is
      [try_except];
    - the peer is an arbitrary state machine ([Remote]): every theorem
      quantifies over all of them.

    [print] calls write to standard output only; no return value and no
    request depends on them, and they are left out of the model. *)

From Stdlib Require Import String Ascii List Arith Bool Lia.
From Stdlib Require Import Floats.PrimFloat.
Import ListNotations.

Set Warnings "-inexact-float".
Local Open Scope string_scope.

(* ===================================================================== *)
(** ** Python's [str] methods used by the client *)
(* ===================================================================== *)

Module Py.

(** Characters are the 8-bit [ascii] of Rocq, read as code points.  On
    0..127 the definitions below are Python's; the codes above are treated
    as caseless and non-alphabetic (in a UTF-8 source literal they are the
    bytes of a symbol such as the cross mark of the error messages). *)

Definition code (c : ascii) : nat := nat_of_ascii c.

Definition between (lo hi : nat) (c : ascii) : bool :=
  ((lo <=? code c)%nat && (code c <=? hi)%nat)%bool.

Definition is_upper_char : ascii -> bool := between 65 90.
Definition is_lower_char : ascii -> bool := between 97 122.

Definition isalpha_char (c : ascii) : bool :=
  is_upper_char c || is_lower_char c.

(** [str.isspace] on one ASCII character: TAB, LF, VT, FF, CR, the four
    separators FS, GS, RS, US, and the space. *)
Definition isspace_char (c : ascii) : bool :=
  between 9 13 c || between 28 32 c.

Definition lower_char (c : ascii) : ascii :=
  if is_upper_char c then ascii_of_nat (code c + 32) else c.

Definition upper_char (c : ascii) : ascii :=
  if is_lower_char c then ascii_of_nat (code c - 32) else c.

Fixpoint map_chars (f : ascii -> ascii) (s : string) : string :=
  match s with
  | EmptyString => EmptyString
  | String c s' => String (f c) (map_chars f s')
  end.

Fixpoint all_chars (p : ascii -> bool) (s : string) : bool :=
  match s with
  | EmptyString => true
  | String c s' => p c && all_chars p s'
  end.

(** [s.lower()], [s.upper()], [len(s)] *)
Definition lower : string -> string := map_chars lower_char.
Definition upper : string -> string := map_chars upper_char.
Definition len : string -> nat := String.length.

(** [s.isalpha()]: every character is alphabetic and there is at least
    one character. *)
Definition isalpha (s : string) : bool :=
  match s with
  | EmptyString => false
  | String _ _ => all_chars isalpha_char s
  end.

(** [s.lstrip()], [s.rstrip()], [s.strip()] *)
Fixpoint lstrip (s : string) : string :=
  match s with
  | EmptyString => EmptyString
  | String c s' => if isspace_char c then lstrip s' else s
  end.

Fixpoint rstrip (s : string) : string :=
  match s with
  | EmptyString => EmptyString
  | String c s' =>
      match rstrip s' with
      | EmptyString => if isspace_char c then EmptyString else String c EmptyString
      | t => String c t
      end
  end.

Definition strip (s : string) : string := rstrip (lstrip s).

(** [sep.join(parts)] *)
Definition join (sep : string) (parts : list string) : string :=
  String.concat sep parts.

(** [x in xs] for a list of strings *)
Definition contains (x : string) (xs : list string) : bool :=
  existsb (String.eqb x) xs.

(** A dict with string keys, in insertion order. *)
Definition dict (V : Type) : Type := list (string * V).

Fixpoint dict_get {V : Type} (k : string) (d : dict V) : option V :=
  match d with
  | [] => None
  | (k', v) :: d' => if String.eqb k k' then Some v else dict_get k d'
  end.

(** [k in d] *)
Definition dict_contains {V : Type} (k : string) (d : dict V) : bool :=
  match dict_get k d with
  | Some _ => true
  | None => false
  end.

(** [d.keys()] *)
Definition keys {V : Type} (d : dict V) : list string := map fst d.

(** The [__str__] protocol. *)
Class Str (A : Type) : Type := str : A -> string.

#[global] Instance Str_string : Str string := fun s => s.

(** An object of the external library, observed only through [str()]. *)
Record object : Type := Object { object_str : string }.

#[global] Instance Str_object : Str object := object_str.

(** An instance of (a subclass of) [Exception]: its class name and its
    [str()].  Signals outside [Exception] (keyboard interrupt, task
    cancellation) are not faults of a call and are not modelled. *)
Record exc : Type := Exc { exc_class : string; exc_str : string }.

#[global] Instance Str_exc : Str exc := exc_str.

Definition RuntimeError (msg : string) : exc := Exc "RuntimeError" msg.
Definition KeyError (key : string) : exc := Exc "KeyError" key.

(** How a call ends. *)
Inductive outcome (A : Type) : Type :=
| Returned (a : A)
| Raised (e : exc).
Arguments Returned {A} a.
Arguments Raised {A} e.

(** Values that the client puts in a parameter mapping. *)
Inductive value : Type :=
| VStr (s : string)
| VFloat (f : float).

Definition newline : string := String (ascii_of_nat 10) EmptyString.

End Py.
Export Py.


(* ===================================================================== *)
(** ** The external MCP library, as the client sees it *)
(* ===================================================================== *)

Module Mcp.

(** An operation descriptor ([tool.name], [tool.description],
    [tool.inputSchema]). *)
Record Tool : Type := {
  name : string;
  description : string;
  inputSchema : option object
}.

(** What [result.content] can be, as far as the client distinguishes:
    [isinstance(result.content, list)] or anything else. *)
Inductive content_value : Type :=
| ContentList (items : list object)
| ContentOther (v : object).

(** The value of [call_tool].  [content = None] stands for an object without
    an attribute of that name ([hasattr(result, 'content')] is false). *)
Record CallToolResult : Type := {
  content : option content_value;
  result_str : string
}.

#[global] Instance Str_CallToolResult : Str CallToolResult := result_str.

(** The handle stored in [self.session]; it is truthy, so [not self.session]
    holds exactly when the field is [None]. *)
Inductive ClientSession : Type := Session.

(** The async context managers entered on [self.exit_stack]. *)
Inductive resource : Type := StdioTransport | SessionContext.

(** Everything the client asks of the outside world, in order. *)
Inductive request : Type :=
| StdioClient (command : string) (args : list string)
| OpenSession
| Initialize
| ListTools
| CallTool (tool : string) (arguments : dict value)
| Close (r : resource).

(** The peer: any state machine that answers each request by returning or
    by raising an [Exception]. *)
Record Remote : Type := {
  peer : Type;
  stdio_client_reply : peer -> outcome unit * peer;
  client_session_reply : peer -> outcome unit * peer;
  initialize_reply : peer -> outcome unit * peer;
  list_tools_reply : peer -> outcome (list Tool) * peer;
  call_tool_reply : string -> dict value -> peer -> outcome CallToolResult * peer
}.

End Mcp.
Export Mcp.

(* ===================================================================== *)
(** ** The monad of client methods *)
(* ===================================================================== *)

Section Effects.

Context {R : Remote}.

(** The state a method runs in: the peer and the log of requests. *)
Record World : Type := { remote : peer R; sent : list request }.

Definition M (A : Type) : Type := World -> outcome A * World.

Definition ret {A : Type} (a : A) : M A := fun w => (Returned a, w).

Definition raise {A : Type} (e : exc) : M A := fun w => (Raised e, w).

Definition bind {A B : Type} (m : M A) (k : A -> M B) : M B :=
  fun w =>
    match m w with
    | (Returned a, w') => k a w'
    | (Raised e, w') => (Raised e, w')
    end.

(** [try: body except Exception as e: handler e] *)
Definition try_except {A : Type} (body : M A) (handler : exc -> M A) : M A :=
  fun w =>
    match body w with
    | (Returned a, w') => (Returned a, w')
    | (Raised e, w') => handler e w'
    end.

(** [await] of one request: it is logged, and the peer answers. *)
Definition await {A : Type} (rq : request)
    (reply : peer R -> outcome A * peer R) : M A :=
  fun w =>
    let (answer, p) := reply (remote w) in
    (answer, {| remote := p; sent := sent w ++ [rq] |}).

(** [session.initialize()], [session.list_tools()] (the [.tools] of the
    response) and [session.call_tool(name, arguments)] *)
Definition initialize (_ : ClientSession) : M unit :=
  await Initialize (initialize_reply R).

Definition list_tools (_ : ClientSession) : M (list Tool) :=
  await ListTools (list_tools_reply R).

Definition call_tool (_ : ClientSession) (tool : string)
    (arguments : dict value) : M CallToolResult :=
  await (CallTool tool arguments) (call_tool_reply R tool arguments).

End Effects.

Arguments World R : clear implicits.
Arguments M R A : clear implicits.

Declare Scope py_scope.
Delimit Scope py_scope with py.
Notation "x <- m ;; k" := (bind m (fun x => k))
  (at level 61, m at next level, right associativity) : py_scope.

(* ===================================================================== *)
(** ** class WeatherMCPClient *)
(* ===================================================================== *)

(** The instance attributes set by [__init__]. *)
Record WeatherMCPClient : Type := {
  session : option ClientSession;
  exit_stack : list resource
}.

(** [WeatherMCPClient()] *)
Definition new_client : WeatherMCPClient :=
  {| session := None; exit_stack := [] |}.

Definition not_connected : exc :=
  RuntimeError "Not connected to server. Call connect_to_weather_server() first.".

(** The dict literal of [query_weather] (lines 90-101). *)
Definition location_coords : dict (float * float) :=
  [ ("beijing", (39.9042, 116.4074));
    ("new york", (40.7128, -74.0060));
    ("london", (51.5074, -0.1278));
    ("tokyo", (35.6762, 139.6503));
    ("san francisco", (37.7749, -122.4194));
    ("paris", (48.8566, 2.3522));
    ("sydney", (-33.8688, 151.2093));
    ("los angeles", (34.0522, -118.2437));
    ("chicago", (41.8781, -87.6298));
    ("miami", (25.7617, -80.1918)) ]%float.

(** The rendering of a result, written out after each of the four
    [call_tool] sites (lines 80-86, 108-114, 141-147, 162-168). *)
Definition result_text (result : CallToolResult) : string :=
  match content result with
  | Some (ContentList items) => join newline (map str items)
  | Some (ContentOther v) => str v
  | None => str result
  end.

(** The f-string of lines 117-124. *)
Definition unrecognized_message {V : Type} (location : string)
    (coords : dict V) (available_tools : list string) : string :=
  "❓ Unable to query weather for '" ++ location ++ "'." ++ newline
  ++ newline
  ++ "Available options:" ++ newline
  ++ "1. For US weather alerts, use a 2-letter state code (e.g., 'CA', 'NY', 'TX')" ++ newline
  ++ "2. For weather forecasts, use one of these supported cities:" ++ newline
  ++ "   " ++ join ", " (keys coords) ++ newline
  ++ newline
  ++ "Available tools on server: " ++ join ", " available_tools.

Section Methods.

Context {R : Remote}.
Local Open Scope py_scope.

(** [connect_to_weather_server]: the three awaits that set the session up,
    then the listing; an exception at any of them is caught and the method
    returns [False] with whatever [self] had become by then. *)
Definition connect_to_weather_server (self : WeatherMCPClient)
    : M R (bool * WeatherMCPClient) :=
  fun w =>
    match await (StdioClient "uvx"
                   ["--from";
                    "git+https://github.com/Zero-Hero-ing/Zero-Hero-ing.git";
                    "query_weather"])
                (stdio_client_reply R) w with
    | (Raised _, w1) => (Returned (false, self), w1)
    | (Returned _, w1) =>
        let self1 := {| session := session self;
                        exit_stack := StdioTransport :: exit_stack self |} in
        match await OpenSession (client_session_reply R) w1 with
        | (Raised _, w2) => (Returned (false, self1), w2)
        | (Returned _, w2) =>
            let self2 := {| session := Some Session;
                            exit_stack := SessionContext :: exit_stack self1 |} in
            match (_ <- initialize Session ;; list_tools Session) w2 with
            | (Raised _, w3) => (Returned (false, self2), w3)
            | (Returned _, w3) => (Returned (true, self2), w3)
            end
        end
    end.

(** The body of [query_weather] with the dict literal as a parameter. *)
Definition query_weather_over (coords : dict (float * float))
    (self : WeatherMCPClient) (location : string) : M R string :=
  match session self with
  | None => raise not_connected
  | Some s =>
      try_except
        (tools_response <- list_tools s ;;
         let available_tools := map name tools_response in
         match available_tools with
         | [] => ret "No tools available on the server."
         | _ :: _ =>
             (* lines 88-124: reached when the state-code branch does not
                return *)
             let other_locations : M R string :=
               let location_lower := lower location in
               if dict_contains location_lower coords
                  && contains "get_forecast" available_tools
               then
                 match dict_get location_lower coords with
                 | Some (lat, lon) =>
                     result <- call_tool s "get_forecast"
                                 [("latitude", VFloat lat);
                                  ("longitude", VFloat lon)] ;;
                     ret (result_text result)
                 | None => raise (KeyError location_lower)
                 end
               else ret (unrecognized_message location coords available_tools)
             in
             if (len location =? 2)%nat && isalpha (upper location) then
               if contains "get_alerts" available_tools then
                 result <- call_tool s "get_alerts"
                             [("state", VStr (upper location))] ;;
                 ret (result_text result)
               else other_locations
             else other_locations
         end)
        (fun e => ret ("❌ Error querying weather: " ++ str e))
  end.

(** [query_weather] *)
Definition query_weather : WeatherMCPClient -> string -> M R string :=
  query_weather_over location_coords.

(** [get_weather_forecast] *)
Definition get_weather_forecast (self : WeatherMCPClient)
    (latitude longitude : float) : M R string :=
  match session self with
  | None => raise not_connected
  | Some s =>
      try_except
        (result <- call_tool s "get_forecast"
                     [("latitude", VFloat latitude);
                      ("longitude", VFloat longitude)] ;;
         ret (result_text result))
        (fun e => ret ("❌ Error getting forecast: " ++ str e))
  end.

(** [get_weather_alerts] *)
Definition get_weather_alerts (self : WeatherMCPClient)
    (state_code : string) : M R string :=
  match session self with
  | None => raise not_connected
  | Some s =>
      try_except
        (let state_code := upper state_code in
         result <- call_tool s "get_alerts" [("state", VStr state_code)] ;;
         ret (result_text result))
        (fun e => ret ("❌ Error getting alerts: " ++ str e))
  end.

(** [list_available_tools] *)
Definition list_available_tools (self : WeatherMCPClient) : M R (list Tool) :=
  match session self with
  | None => raise not_connected
  | Some s =>
      try_except
        (tools <- list_tools s ;; ret tools)
        (fun _ => ret [])
  end.

(** [cleanup]: [exit_stack.aclose()] leaves the entered contexts, last
    entered first. *)
Definition cleanup (self : WeatherMCPClient) : M R WeatherMCPClient :=
  fun w =>
    (Returned {| session := session self; exit_stack := [] |},
     {| remote := remote w;
        sent := sent w ++ map Close (exit_stack self) |}).

End Methods.

(* ===================================================================== *)
(** ** The router in the vocabulary of the specification *)
(* ===================================================================== *)

(** The specification splits [query_weather] into a classification and an
    invocation.  The source has no such functions; the two definitions below
    read the conditions of lines 76-77 and 103-104 off the method, and
    [query_weather_factored] shows that the method is their composition. *)

Inductive ResolvedQuery : Type :=
| StateAlert (state : string)
| ForecastAt (latitude longitude : float)
| Unrecognized (text : string).

Definition classify_over (coords : dict (float * float))
    (location : string) (available_tools : list string) : ResolvedQuery :=
  if (len location =? 2)%nat && isalpha (upper location)
     && contains "get_alerts" available_tools
  then StateAlert (upper location)
  else
    match dict_get (lower location) coords with
    | Some (lat, lon) =>
        if contains "get_forecast" available_tools
        then ForecastAt lat lon
        else Unrecognized location
    | None => Unrecognized location
    end.

Definition classify_and_resolve : string -> list string -> ResolvedQuery :=
  classify_over location_coords.

Definition invoke_over {R : Remote} (coords : dict (float * float))
    (s : ClientSession) (available_tools : list string) (q : ResolvedQuery)
    : M R string :=
  match q with
  | StateAlert state =>
      (result <- call_tool s "get_alerts" [("state", VStr state)] ;;
       ret (result_text result))%py
  | ForecastAt lat lon =>
      (result <- call_tool s "get_forecast"
                   [("latitude", VFloat lat); ("longitude", VFloat lon)] ;;
       ret (result_text result))%py
  | Unrecognized text => ret (unrecognized_message text coords available_tools)
  end.

(** The request a resolved query stands for, if any. *)
Definition request_of (q : ResolvedQuery) : list request :=
  match q with
  | StateAlert state => [CallTool "get_alerts" [("state", VStr state)]]
  | ForecastAt lat lon =>
      [CallTool "get_forecast"
         [("latitude", VFloat lat); ("longitude", VFloat lon)]]
  | Unrecognized _ => []
  end.

(* ===================================================================== *)
(** ** The interactive loop and the entry points *)
(* ===================================================================== *)

(** [s.startswith(prefix)] *)
Fixpoint startswith (s prefix : string) : bool :=
  match prefix with
  | EmptyString => true
  | String c prefix' =>
      match s with
      | EmptyString => false
      | String d s' => Ascii.eqb c d && startswith s' prefix'
      end
  end.

(** [s.split()]: the maximal runs of non-whitespace characters, in order.
    [word] is the run being read, if any. *)
Fixpoint split_from (word : option string) (s : string) : list string :=
  match s with
  | EmptyString =>
      match word with
      | Some t => [t]
      | None => []
      end
  | String c s' =>
      if isspace_char c then
        match word with
        | Some t => t :: split_from None s'
        | None => split_from None s'
        end
      else
        split_from
          (Some match word with
                | Some t => t ++ String c EmptyString
                | None => String c EmptyString
                end) s'
  end.

Definition split : string -> list string := split_from None.

(** [s * n] *)
Fixpoint times (s : string) (n : nat) : string :=
  match n with
  | O => EmptyString
  | S n' => s ++ times s n'
  end.

(** The truth value of a string. *)
Definition nonempty (s : string) : bool :=
  match s with
  | EmptyString => false
  | String _ _ => true
  end.

Definition ValueError (msg : string) : exc := Exc "ValueError" msg.

(** What the [input()] of one turn of the loop comes to: a line, an
    [Exception] (the end of the input is one, [EOFError]), or the interrupt
    key. *)
Inductive read : Type :=
| Line (raw : string)
| ReadFault (e : exc)
| Interrupt.

(** Whether the loop goes on to its next [input()]. *)
Inductive control : Type := Continue | Break.

(** The texts printed on entering [interactive_chat] (lines 198-206). *)
Definition chat_banner : list string :=
  [ newline ++ "🌟 Weather MCP Client Interactive Mode";
    "Commands:";
    "  - Type a location to get weather (e.g., 'Beijing', 'New York')";
    "  - 'forecast <lat> <lon>' to get forecast for coordinates";
    "  - 'alerts <state>' to get alerts for US state (e.g., 'alerts CA')";
    "  - 'tools' to list available tools";
    "  - 'help' to show this help message";
    "  - 'quit' to exit";
    times "-" 60 ].

(** The texts of the [help] command (lines 218-225). *)
Definition help_lines : list string :=
  [ newline ++ "📖 Available Commands:";
    "  • Location names: Beijing, New York, London, Tokyo, etc.";
    "  • US state codes: CA, NY, TX, FL, etc. (for alerts)";
    "  • forecast <lat> <lon>: Get forecast for coordinates";
    "  • alerts <state>: Get weather alerts for US state";
    "  • tools: List available server tools";
    "  • help: Show this help message";
    "  • quit: Exit the client" ].


Section Shell.

Context {R : Remote}.

(** Python's [float()] on a string: the parsed number, or [None] where it
    raises [ValueError].  It is a built-in of the language, not of this
    repository, and is a parameter here. *)
Variable to_float : string -> option float.

Local Open Scope py_scope.

(** [try: body except cls: handler]: an exception of another class passes
    through. *)
Definition try_except_class {A : Type} (cls : string) (body : M R A)
    (handler : exc -> M R A) : M R A :=
  fun w =>
    match body w with
    | (Returned a, w') => (Returned a, w')
    | (Raised e, w') =>
        if String.eqb (exc_class e) cls then handler e w' else (Raised e, w')
    end.



(** [float(text)] *)
Definition float_ (text : string) : M R float :=
  match to_float text with
  | Some f => ret f
  | None => raise (ValueError ("could not convert string to float: '"
                                 ++ text ++ "'"))
  end.

(** One turn of the [while True] of [interactive_chat] (lines 209-256).  The
    value is the texts that the loop itself prints in this turn, in order,
    and whether the loop goes on. *)
Definition chat_turn (self : WeatherMCPClient) (r : read)
    : M R (list string * control) :=
  match r with
  | Interrupt => ret ([newline ++ "👋 Goodbye!"], Break)
  | ReadFault e => ret (["❌ Error: " ++ str e], Continue)
  | Line raw =>
      let user_input := strip raw in
      try_except
        (if (lower user_input =? "quit")%string then
           ret (["👋 Goodbye!"], Break)
         else if (lower user_input =? "tools")%string then
           _ <- list_available_tools self ;;
           ret ([], Continue)
         else if (lower user_input =? "help")%string then
           ret (help_lines, Continue)
         else if startswith (lower user_input) "forecast " then
           match split user_input with
           | [_; part1; part2] =>
               try_except_class "ValueError"
                 (lat <- float_ part1 ;;
                  lon <- float_ part2 ;;
                  result <- get_weather_forecast self lat lon ;;
                  ret ([newline ++ "📊 Weather Forecast:" ++ newline
                        ++ result], Continue))
                 (fun _ =>
                    ret (["❌ Invalid coordinates. Use: forecast <latitude> <longitude>"],
                         Continue))
           | _ => ret (["❌ Usage: forecast <latitude> <longitude>"], Continue)
           end
         else if startswith (lower user_input) "alerts " then
           match split user_input with
           | [_; state] =>
               result <- get_weather_alerts self state ;;
               ret ([newline ++ "🚨 Weather Alerts:" ++ newline ++ result],
                    Continue)
           | _ =>
               ret (["❌ Usage: alerts <state_code> (e.g., alerts CA)"],
                    Continue)
           end
         else if nonempty user_input then
           result <- query_weather self user_input ;;
           ret ([newline ++ "📊 Weather Result:" ++ newline ++ result],
                Continue)
         else
           ret (["Please enter a location or command. Type 'help' for available commands."],
                Continue))
        (fun e => ret (["❌ Error: " ++ str e], Continue))
  end.

(** The loop over the reads that have happened so far.  [Continue] in the
    value means that the loop is at its prompt again. *)
Fixpoint chat_loop (self : WeatherMCPClient) (reads : list read)
    : M R (list string * control) :=
  match reads with
  | [] => ret ([], Continue)
  | r :: rest =>
      turn <- chat_turn self r ;;
      match snd turn with
      | Break => ret turn
      | Continue =>
          more <- chat_loop self rest ;;
          ret ((fst turn ++ fst more)%list, snd more)
      end
  end.

(** [interactive_chat] *)
Definition interactive_chat (self : WeatherMCPClient) (reads : list read)
    : M R (list string * control) :=
  out <- chat_loop self reads ;;
  ret ((chat_banner ++ fst out)%list, snd out).








End Shell.

(* ===================================================================== *)
(** ** A peer with fixed answers, for concrete runs *)
(* ===================================================================== *)

Module Scripted.

(** The peer advertises [advertised] at every listing and answers every call
    with [answer]; the session set-up succeeds up to the stage [fails_at]. *)
Inductive stage : Type := AtTransport | AtSession | AtHandshake | Never.

Record script : Type := {
  fails_at : stage;
  advertised : outcome (list Tool);
  answer : string -> dict value -> outcome CallToolResult
}.

Definition refused : exc := Exc "ConnectionError" "connection closed".

Definition fail_when (b : bool) : outcome unit :=
  if b then Raised refused else Returned tt.

Definition server : Remote := {|
  peer := script;
  stdio_client_reply := fun p =>
    (fail_when match fails_at p with AtTransport => true | _ => false end, p);
  client_session_reply := fun p =>
    (fail_when match fails_at p with AtSession => true | _ => false end, p);
  initialize_reply := fun p =>
    (fail_when match fails_at p with AtHandshake => true | _ => false end, p);
  list_tools_reply := fun p => (advertised p, p);
  call_tool_reply := fun tool arguments p => (answer p tool arguments, p)
|}.

Definition tool (n : string) : Tool :=
  {| name := n; description := ""; inputSchema := None |}.

Definition text_result (lines : list string) : CallToolResult :=
  {| content := Some (ContentList (map Object lines));
     result_str := "CallToolResult" |}.

(** A weather server: both operations advertised, a two-item answer. *)
Definition weather : script := {|
  fails_at := Never;
  advertised := Returned [tool "get_alerts"; tool "get_forecast"];
  answer := fun _ _ => Returned (text_result ["Sunny"; "High 21"])
|}.

Definition scalar_result (text : string) : CallToolResult :=
  {| content := Some (ContentOther (Object text));
     result_str := "CallToolResult" |}.

(** The same server answering with a single value instead of a list. *)
Definition scalar : script := {|
  fails_at := Never;
  advertised := Returned [tool "get_alerts"; tool "get_forecast"];
  answer := fun _ _ => Returned (scalar_result "Clear")
|}.

Definition only (n : string) : script := {|
  fails_at := Never;
  advertised := Returned [tool n];
  answer := fun _ _ => Returned (text_result ["ok"])
|}.

Definition no_tools : script := {|
  fails_at := Never;
  advertised := Returned [];
  answer := fun _ _ => Returned (text_result ["ok"])
|}.

Definition faulty : script := {|
  fails_at := Never;
  advertised := Returned [tool "get_alerts"; tool "get_forecast"];
  answer := fun _ _ => Raised (Exc "McpError" "timed out")
|}.

(** A server whose listing fails. *)
Definition unlisted : script := {|
  fails_at := Never;
  advertised := Raised refused;
  answer := fun _ _ => Returned (text_result ["ok"])
|}.

Definition described (n d : string) : Tool :=
  {| name := n; description := d; inputSchema := Some (Object "{}") |}.

(** The same two names as [weather], with descriptions and schemas, and
    every call failing. *)
Definition faulty_described : script := {|
  fails_at := Never;
  advertised :=
    Returned [described "get_alerts" "Weather alerts for a US state";
              described "get_forecast" "Forecast for a location"];
  answer := fun _ _ => Raised (Exc "McpError" "timed out")
|}.

(** A server process that starts and then fails the handshake. *)
Definition no_handshake : script := {|
  fails_at := AtHandshake;
  advertised := Raised refused;
  answer := fun _ _ => Raised refused
|}.

(** A command that cannot be started. *)
Definition no_process : script := {|
  fails_at := AtTransport;
  advertised := Raised refused;
  answer := fun _ _ => Raised refused
|}.

Definition start (p : script) : World server :=
  {| remote := p : peer server; sent := [] |}.

Definition connected : WeatherMCPClient :=
  {| session := Some Session; exit_stack := [SessionContext; StdioTransport] |}.

(** A client whose session field is set although nothing is on its stack. *)
Definition bare : WeatherMCPClient :=
  {| session := Some Session; exit_stack := [] |}.

(** [float()] on the two numerals of the runs below. *)
Definition to_float (text : string) : option float :=
  if (text =? "40.7128")%string then Some 40.7128%float
  else if (text =? "-74.006")%string then Some (-74.006)%float
  else None.

End Scripted.

(* ===================================================================== *)
(** ** Facts about the string methods and the table *)
(* ===================================================================== *)

Lemma len_map_chars (f : ascii -> ascii) (s : string) :
  len (map_chars f s) = len s.
Proof.
  unfold len. induction s as [|c s IH]; simpl; [reflexivity|].
  now rewrite IH.
Qed.

Lemma len_lower (s : string) : len (lower s) = len s.
Proof. apply len_map_chars. Qed.





Lemma dict_contains_get {V : Type} (k : string) (d : dict V) :
  dict_contains k d = true <-> exists v, dict_get k d = Some v.
Proof.
  unfold dict_contains. destruct (dict_get k d) as [v|]; split.
  - intros _. now exists v.
  - reflexivity.
  - discriminate.
  - intros [v Hv]. discriminate.
Qed.

(** No key of the table is short enough to be taken for a state code. *)
Lemma location_coords_key_len (k : string) (v : float * float) :
  dict_get k location_coords = Some v -> 5 <= len k.
Proof.
  unfold location_coords. cbn [dict_get].
  repeat match goal with
  | |- (if String.eqb k ?key then _ else _) = _ -> _ =>
      let E := fresh "E" in
      destruct (String.eqb k key) eqn:E;
      [ apply String.eqb_eq in E; subst k; intros _; simpl; lia | ]
  end.
  discriminate.
Qed.

Lemma location_coords_not_state_code (location : string) (v : float * float) :
  dict_get (lower location) location_coords = Some v ->
  (len location =? 2)%nat = false.
Proof.
  intros H. apply location_coords_key_len in H.
  rewrite len_lower in H. apply Nat.eqb_neq. lia.
Qed.


(* ===================================================================== *)
(** ** Classification *)
(* ===================================================================== *)



Lemma classify_city (location : string) (names : list string)
    (lat lon : float) :
  dict_get (lower location) location_coords = Some (lat, lon) ->
  contains "get_forecast" names = true ->
  classify_and_resolve location names = ForecastAt lat lon.
Proof.
  intros Hkey Hadv. unfold classify_and_resolve, classify_over.
  rewrite (location_coords_not_state_code _ _ Hkey). cbn [andb].
  now rewrite Hkey, Hadv.
Qed.

Lemma classify_neither (coords : dict (float * float)) (location : string)
    (names : list string) :
  (len location =? 2)%nat && isalpha (upper location)
    && contains "get_alerts" names = false ->
  dict_contains (lower location) coords
    && contains "get_forecast" names = false ->
  classify_over coords location names = Unrecognized location.
Proof.
  intros Hstate Hcity. unfold classify_over. rewrite Hstate.
  unfold dict_contains in Hcity.
  destruct (dict_get (lower location) coords) as [[lat lon]|];
    [|reflexivity].
  cbn [andb] in Hcity. now rewrite Hcity.
Qed.

Lemma classify_nothing_advertised (coords : dict (float * float))
    (location : string) :
  classify_over coords location [] = Unrecognized location.
Proof.
  unfold classify_over. cbn [contains existsb]. rewrite andb_false_r.
  now destruct (dict_get (lower location) coords) as [[lat lon]|].
Qed.

(* ===================================================================== *)
(** ** Runs of the methods on an established session *)
(* ===================================================================== *)

Section Runs.

Context {R : Remote}.
Variables (s : ClientSession) (stack : list resource).

Local Abbreviation self := {| session := Some s; exit_stack := stack |}.

Local Abbreviation listed p w :=
  {| remote := p; sent := (sent w ++ [ListTools])%list |}.

Local Abbreviation on_fault :=
  (fun e : exc => ret ("❌ Error querying weather: " ++ str e)).

(** [query_weather] is the listing, the emptiness test, and then the
    invocation of what the classification resolved. *)
Lemma query_weather_factored (coords : dict (float * float))
    (location : string) (w : World R) :
  query_weather_over coords self location w =
  try_except
    (tools_response <- list_tools s ;;
     match map name tools_response with
     | [] => ret "No tools available on the server."
     | names =>
         invoke_over coords s names (classify_over coords location names)
     end)%py
    on_fault w.
Proof.
  unfold query_weather_over; cbn [session].
  unfold try_except, bind, list_tools, await.
  destruct (list_tools_reply R (remote w)) as [[tools|e] p]; [|reflexivity].
  destruct (map name tools) as [|n names]; [reflexivity|].
  unfold classify_over, dict_contains.
  destruct ((len location =? 2)%nat && isalpha (upper location));
    cbn [andb];
    [ destruct (contains "get_alerts" (n :: names)); [reflexivity|] | ];
    ( destruct (dict_get (lower location) coords) as [[lat lon]|];
      cbn [andb]; [|reflexivity];
      destruct (contains "get_forecast" (n :: names)); reflexivity ).
Qed.

Lemma query_weather_listed (coords : dict (float * float))
    (location : string) (w : World R) (tools : list Tool) (p : peer R) :
  list_tools_reply R (remote w) = (Returned tools, p) ->
  query_weather_over coords self location w =
  match map name tools with
  | [] => (Returned "No tools available on the server.", listed p w)
  | names =>
      try_except
        (invoke_over coords s names (classify_over coords location names))
        on_fault (listed p w)
  end.
Proof.
  intros Hlist. rewrite query_weather_factored.
  unfold try_except at 1. unfold bind, list_tools, await. rewrite Hlist.
  destruct (map name tools); reflexivity.
Qed.

Lemma query_weather_list_fault (coords : dict (float * float))
    (location : string) (w : World R) (e : exc) (p : peer R) :
  list_tools_reply R (remote w) = (Raised e, p) ->
  query_weather_over coords self location w =
  (Returned ("❌ Error querying weather: " ++ str e), listed p w).
Proof.
  intros Hlist. rewrite query_weather_factored.
  unfold try_except, bind, list_tools, await. now rewrite Hlist.
Qed.

(** What the invocation of a resolved query asks of the peer, and what it
    returns once the handler of [query_weather] is around it. *)
Lemma invoke_sent (coords : dict (float * float)) (names : list string)
    (q : ResolvedQuery) (w : World R) :
  sent (snd (try_except (invoke_over coords s names q) on_fault w)) =
  (sent w ++ request_of q)%list.
Proof.
  destruct q as [state|lat lon|text]; cbn [invoke_over request_of];
    unfold try_except, bind, call_tool, await, ret.
  - destruct (call_tool_reply R _ _ (remote w)) as [[r|e] p']; reflexivity.
  - destruct (call_tool_reply R _ _ (remote w)) as [[r|e] p']; reflexivity.
  - cbn. now rewrite app_nil_r.
Qed.

Lemma invoke_call (coords : dict (float * float)) (names : list string)
    (q : ResolvedQuery) (w : World R) (tool : string)
    (arguments : dict value) :
  request_of q = [CallTool tool arguments] ->
  fst (try_except (invoke_over coords s names q) on_fault w) =
  Returned
    match fst (call_tool_reply R tool arguments (remote w)) with
    | Returned r => result_text r
    | Raised e => "❌ Error querying weather: " ++ str e
    end.
Proof.
  destruct q as [state|lat lon|text]; cbn [invoke_over request_of];
    intros Hrq; inversion Hrq; subst;
    unfold try_except, bind, call_tool, await, ret;
    destruct (call_tool_reply R _ _ (remote w)) as [[r|e] p']; reflexivity.
Qed.

Lemma invoke_returns (coords : dict (float * float)) (names : list string)
    (q : ResolvedQuery) (w : World R) :
  exists text : string,
    fst (try_except (invoke_over coords s names q) on_fault w) = Returned text.
Proof.
  destruct q as [state|lat lon|text]; cbn [invoke_over];
    unfold try_except, bind, call_tool, await, ret.
  - destruct (call_tool_reply R _ _ (remote w)) as [[r|e] p'];
      eexists; reflexivity.
  - destruct (call_tool_reply R _ _ (remote w)) as [[r|e] p'];
      eexists; reflexivity.
  - eexists; reflexivity.
Qed.

(** The requests of one [query_weather]: the listing and, unless nothing is
    advertised, the request of the classification. *)
Lemma query_weather_sent (coords : dict (float * float))
    (location : string) (w : World R) (tools : list Tool) (p : peer R) :
  list_tools_reply R (remote w) = (Returned tools, p) ->
  sent (snd (query_weather_over coords self location w)) =
  (sent w ++ ListTools ::
     match map name tools with
     | [] => []
     | names => request_of (classify_over coords location names)
     end)%list.
Proof.
  intros Hlist. rewrite (query_weather_listed _ _ _ _ _ Hlist).
  destruct (map name tools) as [|n names] eqn:E.
  - reflexivity.
  - rewrite invoke_sent. cbn [sent]. now rewrite <- app_assoc.
Qed.

End Runs.

(* ===================================================================== *)
(** ** The city rule and the state-code rule *)
(* ===================================================================== *)

(** C1, as stated, fails: [query_weather] lower-cases its argument but does
    not trim it (only the interactive loop strips the line it has read).
    The text " Beijing" equals the key "beijing" after lower-casing and
    trimming, the forecast operation is advertised, and yet the query is
    unrecognized and nothing but the listing is asked of the server. *)
Lemma C1_untrimmed_city_is_unrecognized :
  dict_get (lower (strip " Beijing")) location_coords
    = Some (39.9042, 116.4074)%float
  /\ Scripted.advertised Scripted.weather
       = Returned [Scripted.tool "get_alerts"; Scripted.tool "get_forecast"]
  /\ classify_and_resolve " Beijing" ["get_alerts"; "get_forecast"]
       = Unrecognized " Beijing"
  /\ sent (snd (query_weather Scripted.connected " Beijing"
                  (Scripted.start Scripted.weather)))
       = [ListTools]
  /\ fst (query_weather Scripted.connected " Beijing"
            (Scripted.start Scripted.weather))
       = Returned (unrecognized_message " Beijing" location_coords
                     ["get_alerts"; "get_forecast"]).
Proof. repeat split; vm_compute; reflexivity. Qed.

(** C1, amended: for every input that equals a key of the ten-entry table
    after lower-casing alone, and given that the forecast operation is
    advertised, [query_weather] classifies the input as a forecast request
    and calls [get_forecast] with exactly the latitude and longitude stored
    for that key; its result is the rendering of the answer. *)
Theorem C1_city_forecast (R : Remote) (s : ClientSession)
    (stack : list resource) (location : string) (w : World R)
    (tools : list Tool) (p : peer R) (lat lon : float) :
  list_tools_reply R (remote w) = (Returned tools, p) ->
  dict_get (lower location) location_coords = Some (lat, lon) ->
  contains "get_forecast" (map name tools) = true ->
  classify_and_resolve location (map name tools) = ForecastAt lat lon
  /\ sent (snd (query_weather {| session := Some s; exit_stack := stack |}
                  location w))
     = (sent w ++
        [ListTools;
         CallTool "get_forecast"
           [("latitude", VFloat lat); ("longitude", VFloat lon)]])%list
  /\ fst (query_weather {| session := Some s; exit_stack := stack |}
            location w)
     = Returned
         match fst (call_tool_reply R "get_forecast"
                      [("latitude", VFloat lat); ("longitude", VFloat lon)]
                      p) with
         | Returned r => result_text r
         | Raised e => "❌ Error querying weather: " ++ str e
         end.
Proof.
  intros Hlist Hkey Hadv.
  pose proof (classify_city _ _ _ _ Hkey Hadv) as Hq.
  split; [exact Hq|]. unfold query_weather. split.
  - rewrite (query_weather_sent _ _ _ _ _ _ _ Hlist).
    destruct (map name tools) as [|n names]; [discriminate Hadv|].
    cbv beta iota zeta.
    unfold classify_and_resolve in Hq. now rewrite Hq.
  - rewrite (query_weather_listed _ _ _ _ _ _ _ Hlist).
    destruct (map name tools) as [|n names]; [discriminate Hadv|].
    cbv beta iota zeta.
    unfold classify_and_resolve in Hq. rewrite Hq.
    now apply invoke_call.
Qed.

(** "Beijing" against a server that advertises both operations. *)
Lemma C1_city_forecast_Beijing :
  classify_and_resolve "Beijing" ["get_alerts"; "get_forecast"]
    = ForecastAt 39.9042 116.4074
  /\ sent (snd (query_weather Scripted.connected "Beijing"
                  (Scripted.start Scripted.weather)))
     = [ListTools;
        CallTool "get_forecast"
          [("latitude", VFloat 39.9042); ("longitude", VFloat 116.4074)]]
  /\ fst (query_weather Scripted.connected "Beijing"
            (Scripted.start Scripted.weather))
     = Returned ("Sunny" ++ newline ++ "High 21").
Proof.
  exact (C1_city_forecast Scripted.server Session
           [SessionContext; StdioTransport] "Beijing"
           (Scripted.start Scripted.weather)
           [Scripted.tool "get_alerts"; Scripted.tool "get_forecast"]
           Scripted.weather 39.9042 116.4074
           eq_refl eq_refl eq_refl).
Defined.





(* ===================================================================== *)
(** ** What the classification depends on *)
(* ===================================================================== *)

(** C2, as stated, fails: the classification is not a function of the text
    and the table alone.  It also reads the operation names that the server
    advertises at this very call (they are listed afresh each time), so the
    same text "CA" is a state alert against one server and unrecognized
    against another. *)
Lemma C2_same_text_two_classifications :
  classify_and_resolve "CA" ["get_alerts"]
    <> classify_and_resolve "CA" ["get_forecast"]
  /\ classify_and_resolve "CA" ["get_alerts"] = StateAlert "CA"
  /\ classify_and_resolve "CA" ["get_forecast"] = Unrecognized "CA"
  /\ sent (snd (query_weather Scripted.connected "CA"
                  (Scripted.start (Scripted.only "get_alerts"))))
     = [ListTools; CallTool "get_alerts" [("state", VStr "CA")]]
  /\ sent (snd (query_weather Scripted.connected "CA"
                  (Scripted.start (Scripted.only "get_forecast"))))
     = [ListTools].
Proof.
  split; [vm_compute; discriminate|].
  repeat split.
Qed.

(** C2, amended: the classification is a function of the input text, the
    static table and the list of advertised operation names.  Two
    evaluations of [query_weather] on the same text whose listings return the
    same names ask the same requests of the server, whatever else differs:
    the servers, their states, the descriptions and schemas of the
    operations, the client objects. *)
Theorem C2_classification_deterministic (R1 R2 : Remote)
    (s1 s2 : ClientSession) (stack1 stack2 : list resource)
    (location : string) (w1 : World R1) (w2 : World R2)
    (tools1 tools2 : list Tool) (p1 : peer R1) (p2 : peer R2) :
  list_tools_reply R1 (remote w1) = (Returned tools1, p1) ->
  list_tools_reply R2 (remote w2) = (Returned tools2, p2) ->
  map name tools1 = map name tools2 ->
  sent w1 = sent w2 ->
  classify_and_resolve location (map name tools1)
    = classify_and_resolve location (map name tools2)
  /\ sent (snd (query_weather {| session := Some s1; exit_stack := stack1 |}
                  location w1))
     = sent (snd (query_weather {| session := Some s2; exit_stack := stack2 |}
                    location w2)).
Proof.
  intros Hlist1 Hlist2 Hnames Hsent. split; [now rewrite Hnames|].
  unfold query_weather.
  rewrite (query_weather_sent _ _ _ _ _ _ _ Hlist1).
  rewrite (query_weather_sent _ _ _ _ _ _ _ Hlist2).
  now rewrite Hnames, Hsent.
Qed.

(** Two servers that advertise the same two names with different
    descriptions and answer differently: the requests coincide. *)
Lemma C2_classification_deterministic_run :
  sent (snd (query_weather Scripted.connected "Tokyo"
               (Scripted.start Scripted.weather)))
  = sent (snd (query_weather Scripted.bare "Tokyo"
                 (Scripted.start Scripted.faulty_described))).
Proof.
  exact (proj2
    (C2_classification_deterministic Scripted.server Scripted.server
       Session Session [SessionContext; StdioTransport] [] "Tokyo"
       (Scripted.start Scripted.weather)
       (Scripted.start Scripted.faulty_described)
       [Scripted.tool "get_alerts"; Scripted.tool "get_forecast"]
       [Scripted.described "get_alerts" "Weather alerts for a US state";
        Scripted.described "get_forecast" "Forecast for a location"]
       Scripted.weather Scripted.faulty_described
       eq_refl eq_refl eq_refl eq_refl)).
Defined.

(* ===================================================================== *)
(** ** The empty listing and the unrecognized query *)
(* ===================================================================== *)

(** C9: on an established session whose server advertises no operation,
    [query_weather] returns the fixed text for every input; the listing is
    the only request, so nothing was classified and no operation called. *)
Theorem C9_no_tools_available (R : Remote) (s : ClientSession)
    (stack : list resource) (location : string) (w : World R)
    (tools : list Tool) (p : peer R) :
  list_tools_reply R (remote w) = (Returned tools, p) ->
  map name tools = [] ->
  query_weather {| session := Some s; exit_stack := stack |} location w
  = (Returned "No tools available on the server.",
     {| remote := p; sent := sent w ++ [ListTools] |}).
Proof.
  intros Hlist Hnone. unfold query_weather.
  rewrite (query_weather_listed _ _ _ _ _ _ _ Hlist).
  now rewrite Hnone.
Qed.

Lemma C9_no_tools_available_CA :
  query_weather Scripted.connected "CA" (Scripted.start Scripted.no_tools)
  = (Returned "No tools available on the server.",
     {| remote := Scripted.no_tools : peer Scripted.server;
        sent := [ListTools] |}).
Proof.
  exact (C9_no_tools_available Scripted.server Session
           [SessionContext; StdioTransport] "CA"
           (Scripted.start Scripted.no_tools) [] Scripted.no_tools
           eq_refl eq_refl).
Defined.

(** C8, as stated, fails: "Atlantis" matches neither rule, but when the
    server advertises nothing the result is the fixed text of the empty
    listing, which carries neither the input nor the city names. *)
Lemma C8_unrecognized_with_no_tools :
  (len "Atlantis" =? 2)%nat && isalpha (upper "Atlantis")
    && contains "get_alerts" [] = false
  /\ dict_contains (lower "Atlantis") location_coords
       && contains "get_forecast" [] = false
  /\ Scripted.advertised Scripted.no_tools = Returned []
  /\ fst (query_weather Scripted.connected "Atlantis"
            (Scripted.start Scripted.no_tools))
     = Returned "No tools available on the server."
  /\ "No tools available on the server."
     <> unrecognized_message "Atlantis" location_coords [].
Proof.
  repeat split. vm_compute. discriminate.
Qed.

(** C8, amended: when the server advertises at least one operation, every
    input that matches neither the state-code rule (with the alert operation
    advertised) nor the city rule (with the forecast operation advertised)
    gets the unrecognized result: the help text, which carries the input
    unchanged, the ten city names of the table in order, and the advertised
    operation names in order.  Nothing but the listing is asked of the
    server. *)
Theorem C8_unrecognized_help (R : Remote) (s : ClientSession)
    (stack : list resource) (location : string) (w : World R)
    (tools : list Tool) (p : peer R) :
  list_tools_reply R (remote w) = (Returned tools, p) ->
  map name tools <> [] ->
  (len location =? 2)%nat && isalpha (upper location)
    && contains "get_alerts" (map name tools) = false ->
  dict_contains (lower location) location_coords
    && contains "get_forecast" (map name tools) = false ->
  classify_and_resolve location (map name tools) = Unrecognized location
  /\ query_weather {| session := Some s; exit_stack := stack |} location w
     = (Returned
          ("❓ Unable to query weather for '" ++ location ++ "'." ++ newline
           ++ newline
           ++ "Available options:" ++ newline
           ++ "1. For US weather alerts, use a 2-letter state code (e.g., 'CA', 'NY', 'TX')"
           ++ newline
           ++ "2. For weather forecasts, use one of these supported cities:"
           ++ newline
           ++ "   "
           ++ "beijing, new york, london, tokyo, san francisco, paris, sydney, los angeles, chicago, miami"
           ++ newline
           ++ newline
           ++ "Available tools on server: " ++ join ", " (map name tools)),
        {| remote := p; sent := sent w ++ [ListTools] |})
  /\ keys location_coords
     = ["beijing"; "new york"; "london"; "tokyo"; "san francisco"; "paris";
        "sydney"; "los angeles"; "chicago"; "miami"].
Proof.
  intros Hlist Hsome Hstate Hcity.
  pose proof (classify_neither _ _ _ Hstate Hcity) as Hq.
  split; [exact Hq|]. split; [|reflexivity].
  unfold query_weather.
  rewrite (query_weather_listed _ _ _ _ _ _ _ Hlist).
  destruct (map name tools) as [|n names]; [now elim Hsome|].
  cbv beta iota zeta. rewrite Hq. reflexivity.
Qed.

Lemma C8_unrecognized_help_Atlantis :
  classify_and_resolve "Atlantis" ["get_alerts"; "get_forecast"]
    = Unrecognized "Atlantis"
  /\ query_weather Scripted.connected "Atlantis"
       (Scripted.start Scripted.weather)
     = (Returned
          ("❓ Unable to query weather for 'Atlantis'." ++ newline
           ++ newline
           ++ "Available options:" ++ newline
           ++ "1. For US weather alerts, use a 2-letter state code (e.g., 'CA', 'NY', 'TX')"
           ++ newline
           ++ "2. For weather forecasts, use one of these supported cities:"
           ++ newline
           ++ "   "
           ++ "beijing, new york, london, tokyo, san francisco, paris, sydney, los angeles, chicago, miami"
           ++ newline
           ++ newline
           ++ "Available tools on server: get_alerts, get_forecast"),
        {| remote := Scripted.weather : peer Scripted.server;
           sent := [ListTools] |})
  /\ keys location_coords
     = ["beijing"; "new york"; "london"; "tokyo"; "san francisco"; "paris";
        "sydney"; "los angeles"; "chicago"; "miami"].
Proof.
  refine (C8_unrecognized_help Scripted.server Session
            [SessionContext; StdioTransport] "Atlantis"
            (Scripted.start Scripted.weather)
            [Scripted.tool "get_alerts"; Scripted.tool "get_forecast"]
            Scripted.weather eq_refl _ eq_refl eq_refl).
  discriminate.
Defined.

(* ===================================================================== *)
(** ** The direct operations *)
(* ===================================================================== *)

Section Direct.

Context {R : Remote}.
Variables (s : ClientSession) (stack : list resource).

Local Abbreviation self := {| session := Some s; exit_stack := stack |}.

Lemma get_weather_forecast_run (latitude longitude : float) (w : World R) :
  get_weather_forecast self latitude longitude w =
  (Returned
     match fst (call_tool_reply R "get_forecast"
                  [("latitude", VFloat latitude);
                   ("longitude", VFloat longitude)] (remote w)) with
     | Returned r => result_text r
     | Raised e => "❌ Error getting forecast: " ++ str e
     end,
   {| remote := snd (call_tool_reply R "get_forecast"
                       [("latitude", VFloat latitude);
                        ("longitude", VFloat longitude)] (remote w));
      sent := sent w ++
              [CallTool "get_forecast"
                 [("latitude", VFloat latitude);
                  ("longitude", VFloat longitude)]] |}).
Proof.
  unfold get_weather_forecast; cbn [session].
  unfold try_except, bind, call_tool, await, ret.
  destruct (call_tool_reply R _ _ (remote w)) as [[r|e] p']; reflexivity.
Qed.

Lemma get_weather_alerts_run (state_code : string) (w : World R) :
  get_weather_alerts self state_code w =
  (Returned
     match fst (call_tool_reply R "get_alerts"
                  [("state", VStr (upper state_code))] (remote w)) with
     | Returned r => result_text r
     | Raised e => "❌ Error getting alerts: " ++ str e
     end,
   {| remote := snd (call_tool_reply R "get_alerts"
                       [("state", VStr (upper state_code))] (remote w));
      sent := sent w ++
              [CallTool "get_alerts" [("state", VStr (upper state_code))]] |}).
Proof.
  unfold get_weather_alerts; cbn [session].
  unfold try_except, bind, call_tool, await, ret.
  destruct (call_tool_reply R _ _ (remote w)) as [[r|e] p']; reflexivity.
Qed.

Lemma list_available_tools_run (w : World R) :
  list_available_tools self w =
  (Returned
     match fst (list_tools_reply R (remote w)) with
     | Returned tools => tools
     | Raised _ => []
     end,
   {| remote := snd (list_tools_reply R (remote w));
      sent := sent w ++ [ListTools] |}).
Proof.
  unfold list_available_tools; cbn [session].
  unfold try_except, bind, list_tools, await, ret.
  destruct (list_tools_reply R (remote w)) as [[tools|e] p']; reflexivity.
Qed.

(** On an established session [query_weather] always returns. *)
Lemma query_weather_returns (coords : dict (float * float))
    (location : string) (w : World R) :
  exists text : string,
    fst (query_weather_over coords self location w) = Returned text.
Proof.
  destruct (list_tools_reply R (remote w)) as [[tools|e] p] eqn:Hlist.
  - rewrite (query_weather_listed _ _ _ _ _ _ _ Hlist).
    destruct (map name tools) as [|n names].
    + eexists; reflexivity.
    + apply invoke_returns.
  - rewrite (query_weather_list_fault _ _ _ _ _ _ _ Hlist).
    eexists; reflexivity.
Qed.

End Direct.

(** C10: [get_weather_alerts] upper-cases its argument and calls
    [get_alerts] with [{state: argument.upper()}], whatever the argument is:
    there is no test of its length or of its characters on the way. *)
Theorem C10_get_weather_alerts_unvalidated (R : Remote) (s : ClientSession)
    (stack : list resource) (state_code : string) (w : World R) :
  sent (snd (get_weather_alerts {| session := Some s; exit_stack := stack |}
               state_code w))
  = (sent w ++
     [CallTool "get_alerts" [("state", VStr (upper state_code))]])%list.
Proof. now rewrite get_weather_alerts_run. Qed.

(** "foo" is sent as the state "FOO". *)
Example get_weather_alerts_foo :
  sent (snd (get_weather_alerts Scripted.connected "foo"
               (Scripted.start Scripted.weather)))
  = [CallTool "get_alerts" [("state", VStr "FOO")]].
Proof. reflexivity. Qed.

(** C5: when the answer to a call carries a content, the text returned is,
    for a list, the items each turned into text by [str] and joined by
    newlines in their order, and for anything else the [str] of that one
    value.  This holds at every call site: the two direct operations and
    the two calls of [query_weather]. *)
Theorem C5_content_rendering (R : Remote) (s : ClientSession)
    (stack : list resource) (w : World R) (r : CallToolResult)
    (c : content_value) (p' : peer R) :
  content r = Some c ->
  (forall latitude longitude : float,
     call_tool_reply R "get_forecast"
       [("latitude", VFloat latitude); ("longitude", VFloat longitude)]
       (remote w) = (Returned r, p') ->
     fst (get_weather_forecast {| session := Some s; exit_stack := stack |}
            latitude longitude w)
     = Returned match c with
                | ContentList items => join newline (map str items)
                | ContentOther v => str v
                end)
  /\ (forall state_code : string,
        call_tool_reply R "get_alerts" [("state", VStr (upper state_code))]
          (remote w) = (Returned r, p') ->
        fst (get_weather_alerts {| session := Some s; exit_stack := stack |}
               state_code w)
        = Returned match c with
                   | ContentList items => join newline (map str items)
                   | ContentOther v => str v
                   end)
  /\ (forall (location : string) (tools : list Tool) (p : peer R)
             (tool : string) (arguments : dict value),
        list_tools_reply R (remote w) = (Returned tools, p) ->
        request_of (classify_and_resolve location (map name tools))
          = [CallTool tool arguments] ->
        call_tool_reply R tool arguments p = (Returned r, p') ->
        fst (query_weather {| session := Some s; exit_stack := stack |}
               location w)
        = Returned match c with
                   | ContentList items => join newline (map str items)
                   | ContentOther v => str v
                   end).
Proof.
  intros Hc.
  assert (Htext : result_text r
                  = match c with
                    | ContentList items => join newline (map str items)
                    | ContentOther v => str v
                    end).
  { unfold result_text. now rewrite Hc. }
  repeat split.
  - intros latitude longitude Hcall.
    rewrite get_weather_forecast_run. cbn [fst]. now rewrite Hcall, <- Htext.
  - intros state_code Hcall.
    rewrite get_weather_alerts_run. cbn [fst]. now rewrite Hcall, <- Htext.
  - intros location tools p tool arguments Hlist Hrq Hcall.
    unfold query_weather.
    rewrite (query_weather_listed _ _ _ _ _ _ _ Hlist).
    unfold classify_and_resolve in Hrq.
    destruct (map name tools) as [|n names].
    { rewrite classify_nothing_advertised in Hrq. discriminate Hrq. }
    cbv beta iota zeta.
    rewrite (invoke_call _ _ _ _ _ _ _ Hrq). cbn [remote].
    now rewrite Hcall, <- Htext.
Qed.

(** A list of two items comes back newline-joined in its order at each call
    site; a single value comes back alone. *)
Lemma C5_content_rendering_runs :
  (fst (get_weather_forecast Scripted.connected 40.7128 (-74.0060)
          (Scripted.start Scripted.weather))
     = Returned ("Sunny" ++ newline ++ "High 21")
   /\ fst (get_weather_alerts Scripted.connected "ca"
             (Scripted.start Scripted.weather))
      = Returned ("Sunny" ++ newline ++ "High 21")
   /\ fst (query_weather Scripted.connected "Beijing"
             (Scripted.start Scripted.weather))
      = Returned ("Sunny" ++ newline ++ "High 21"))
  /\ fst (get_weather_forecast Scripted.connected 40.7128 (-74.0060)
            (Scripted.start Scripted.scalar))
     = Returned "Clear".
Proof.
  pose proof (C5_content_rendering Scripted.server Session
                [SessionContext; StdioTransport]
                (Scripted.start Scripted.weather)
                (Scripted.text_result ["Sunny"; "High 21"])
                (ContentList [Object "Sunny"; Object "High 21"])
                Scripted.weather eq_refl) as (Hforecast & Halerts & Hquery).
  pose proof (C5_content_rendering Scripted.server Session
                [SessionContext; StdioTransport]
                (Scripted.start Scripted.scalar)
                (Scripted.scalar_result "Clear")
                (ContentOther (Object "Clear"))
                Scripted.scalar eq_refl) as (Hscalar & _).
  split; [split; [|split]|].
  - exact (Hforecast 40.7128%float (-74.0060)%float eq_refl).
  - exact (Halerts "ca" eq_refl).
  - exact (Hquery "Beijing"
             [Scripted.tool "get_alerts"; Scripted.tool "get_forecast"]
             Scripted.weather "get_forecast"
             [("latitude", VFloat 39.9042); ("longitude", VFloat 116.4074)]
             eq_refl eq_refl eq_refl).
  - exact (Hscalar 40.7128%float (-74.0060)%float eq_refl).
Defined.

(* ===================================================================== *)
(** ** The session precondition and the faults of a call *)
(* ===================================================================== *)



(** C7: on an established session the three query operations never raise.
    Whatever the server does, each returns a text; when the listing or the
    call raises [e], that text is the error line of the operation followed
    by [str(e)]. *)
Theorem C7_faults_become_text (R : Remote) (s : ClientSession)
    (stack : list resource) (w : World R) (e : exc) (p' : peer R) :
  (forall location : string,
     (exists text : string,
        fst (query_weather {| session := Some s; exit_stack := stack |}
               location w) = Returned text)
     /\ (list_tools_reply R (remote w) = (Raised e, p') ->
         fst (query_weather {| session := Some s; exit_stack := stack |}
                location w)
         = Returned ("❌ Error querying weather: " ++ str e))
     /\ (forall (tools : list Tool) (p : peer R) (tool : string)
                (arguments : dict value),
           list_tools_reply R (remote w) = (Returned tools, p) ->
           request_of (classify_and_resolve location (map name tools))
             = [CallTool tool arguments] ->
           call_tool_reply R tool arguments p = (Raised e, p') ->
           fst (query_weather {| session := Some s; exit_stack := stack |}
                  location w)
           = Returned ("❌ Error querying weather: " ++ str e)))
  /\ (forall latitude longitude : float,
        (exists text : string,
           fst (get_weather_forecast
                  {| session := Some s; exit_stack := stack |}
                  latitude longitude w) = Returned text)
        /\ (call_tool_reply R "get_forecast"
              [("latitude", VFloat latitude); ("longitude", VFloat longitude)]
              (remote w) = (Raised e, p') ->
            fst (get_weather_forecast
                   {| session := Some s; exit_stack := stack |}
                   latitude longitude w)
            = Returned ("❌ Error getting forecast: " ++ str e)))
  /\ (forall state_code : string,
        (exists text : string,
           fst (get_weather_alerts
                  {| session := Some s; exit_stack := stack |}
                  state_code w) = Returned text)
        /\ (call_tool_reply R "get_alerts"
              [("state", VStr (upper state_code))] (remote w)
            = (Raised e, p') ->
            fst (get_weather_alerts
                   {| session := Some s; exit_stack := stack |}
                   state_code w)
            = Returned ("❌ Error getting alerts: " ++ str e))).
Proof.
  split; [|split].
  - intros location. split; [apply query_weather_returns|]. split.
    + intros Hlist. unfold query_weather.
      now rewrite (query_weather_list_fault _ _ _ _ _ _ _ Hlist).
    + intros tools p tool arguments Hlist Hrq Hcall. unfold query_weather.
      rewrite (query_weather_listed _ _ _ _ _ _ _ Hlist).
      unfold classify_and_resolve in Hrq.
      destruct (map name tools) as [|n names].
      { rewrite classify_nothing_advertised in Hrq. discriminate Hrq. }
      cbv beta iota zeta.
      rewrite (invoke_call _ _ _ _ _ _ _ Hrq). cbn [remote].
      now rewrite Hcall.
  - intros latitude longitude. rewrite get_weather_forecast_run. cbn [fst].
    split; [eexists; reflexivity|].
    intros Hcall. now rewrite Hcall.
  - intros state_code. rewrite get_weather_alerts_run. cbn [fst].
    split; [eexists; reflexivity|].
    intros Hcall. now rewrite Hcall.
Qed.

(** A server whose every call times out, and one whose listing fails. *)
Lemma C7_faults_become_text_runs :
  fst (query_weather Scripted.connected "Beijing"
         (Scripted.start Scripted.faulty))
    = Returned "❌ Error querying weather: timed out"
  /\ fst (get_weather_forecast Scripted.connected 40.7128 (-74.0060)
            (Scripted.start Scripted.faulty))
     = Returned "❌ Error getting forecast: timed out"
  /\ fst (get_weather_alerts Scripted.connected "CA"
            (Scripted.start Scripted.faulty))
     = Returned "❌ Error getting alerts: timed out"
  /\ fst (query_weather Scripted.connected "Beijing"
            (Scripted.start Scripted.unlisted))
     = Returned "❌ Error querying weather: connection closed".
Proof.
  destruct (C7_faults_become_text Scripted.server Session
              [SessionContext; StdioTransport]
              (Scripted.start Scripted.faulty)
              (Exc "McpError" "timed out") Scripted.faulty)
    as (Hquery & Hforecast & Halerts).
  destruct (C7_faults_become_text Scripted.server Session
              [SessionContext; StdioTransport]
              (Scripted.start Scripted.unlisted)
              Scripted.refused Scripted.unlisted)
    as (Hunlisted & _).
  split; [|split; [|split]].
  - exact (proj2 (proj2 (Hquery "Beijing"))
             [Scripted.tool "get_alerts"; Scripted.tool "get_forecast"]
             Scripted.faulty "get_forecast"
             [("latitude", VFloat 39.9042); ("longitude", VFloat 116.4074)]
             eq_refl eq_refl eq_refl).
  - exact (proj2 (Hforecast 40.7128%float (-74.0060)%float) eq_refl).
  - exact (proj2 (Halerts "CA") eq_refl).
  - exact (proj1 (proj2 (Hunlisted "Beijing")) eq_refl).
Defined.

(* ===================================================================== *)
(** ** Setting the session up *)
(* ===================================================================== *)

(** A set-up that fails before the session object exists leaves the session
    field as it was, and the method returns [False]. *)
Lemma connect_transport_failure (R : Remote) (self : WeatherMCPClient)
    (w : World R) (e : exc) (p : peer R) :
  stdio_client_reply R (remote w) = (Raised e, p) ->
  fst (connect_to_weather_server self w) = Returned (false, self).
Proof.
  intros Hreply. unfold connect_to_weather_server, await.
  now rewrite Hreply.
Qed.

(** A set-up in which every step succeeds returns [True] with the session
    field set and both contexts on the stack. *)
Lemma connect_success (R : Remote) (self : WeatherMCPClient) (w : World R)
    (p1 p2 p3 p4 : peer R) (tools : list Tool) :
  stdio_client_reply R (remote w) = (Returned tt, p1) ->
  client_session_reply R p1 = (Returned tt, p2) ->
  initialize_reply R p2 = (Returned tt, p3) ->
  list_tools_reply R p3 = (Returned tools, p4) ->
  connect_to_weather_server self w
  = (Returned (true,
               {| session := Some Session;
                  exit_stack :=
                    SessionContext :: StdioTransport :: exit_stack self |}),
     {| remote := p4;
        sent := sent w
                ++ [StdioClient "uvx"
                      ["--from";
                       "git+https://github.com/Zero-Hero-ing/Zero-Hero-ing.git";
                       "query_weather"];
                    OpenSession; Initialize; ListTools] |}).
Proof.
  intros H1 H2 H3 H4.
  unfold connect_to_weather_server, bind, initialize, list_tools, await.
  rewrite H1; cbn [remote sent]. rewrite H2; cbn [remote sent].
  rewrite H3; cbn [remote sent]. rewrite H4; cbn [remote sent].
  now rewrite <- !app_assoc.
Qed.

Example connect_new_client :
  fst (connect_to_weather_server new_client (Scripted.start Scripted.weather))
  = Returned (true, Scripted.connected).
Proof. reflexivity. Qed.

Example connect_no_process :
  fst (connect_to_weather_server new_client
         (Scripted.start Scripted.no_process))
  = Returned (false, new_client).
Proof. reflexivity. Qed.

(** The session field is assigned before the handshake.  When the handshake
    fails the method returns [False] and the field stays set, so a later
    query passes the guard and reports the fault of its own call. *)
Example connect_no_handshake :
  fst (connect_to_weather_server new_client
         (Scripted.start Scripted.no_handshake))
    = Returned (false, Scripted.connected)
  /\ fst (get_weather_alerts Scripted.connected "CA"
            (snd (connect_to_weather_server new_client
                    (Scripted.start Scripted.no_handshake))))
     = Returned "❌ Error getting alerts: connection closed".
Proof. split; reflexivity. Qed.

(** [cleanup] empties the stack, last entered first, and does not touch the
    session field. *)
Example cleanup_connected :
  cleanup Scripted.connected (Scripted.start Scripted.weather)
  = (Returned Scripted.bare,
     {| remote := Scripted.weather : peer Scripted.server;
        sent := [Close SessionContext; Close StdioTransport] |}).
Proof. reflexivity. Qed.

(* ===================================================================== *)
(** ** The string methods on the inputs of the examples *)
(* ===================================================================== *)

Example lower_Beijing : lower "Beijing" = "beijing".
Proof. reflexivity. Qed.

Example upper_ca : upper "ca" = "CA".
Proof. reflexivity. Qed.

Example strip_line : strip "  New York  " = "New York".
Proof. reflexivity. Qed.

Example isalpha_state_codes :
  isalpha "CA" = true /\ isalpha "C4" = false /\ isalpha "" = false.
Proof. repeat split. Qed.

(** Every city of the example script resolves to its coordinates. *)
Example classify_example_cities :
  map (fun city => classify_and_resolve city ["get_alerts"; "get_forecast"])
      ["Beijing"; "New York"; "London"; "Tokyo"]
  = [ForecastAt 39.9042 116.4074; ForecastAt 40.7128 (-74.0060);
     ForecastAt 51.5074 (-0.1278); ForecastAt 35.6762 139.6503].
Proof. reflexivity. Qed.

(* ===================================================================== *)
(** ** More on the set-up and the release of the session *)
(* ===================================================================== *)

(** The three ways in which [connect_to_weather_server] ends. *)
Lemma connect_cases (R : Remote) (self : WeatherMCPClient)
    (w : World R) :
  exists (connected : bool) (self' : WeatherMCPClient),
    fst (connect_to_weather_server self w) = Returned (connected, self')
    /\ ((connected = false /\ self' = self)
        \/ (connected = false
            /\ self' = {| session := session self;
                          exit_stack := StdioTransport :: exit_stack self |})
        \/ self' = {| session := Some Session;
                      exit_stack :=
                        SessionContext :: StdioTransport :: exit_stack self |}).
Proof.
  unfold connect_to_weather_server, bind, initialize, list_tools, await.
  destruct (stdio_client_reply R (remote w)) as [[u1|e1] p1]; cbn [remote sent].
  2:{ exists false, self. split; [reflexivity|]. now left. }
  destruct (client_session_reply R p1) as [[u2|e2] p2]; cbn [remote sent].
  2:{ eexists false, _. split; [reflexivity|]. right; left. now split. }
  destruct (initialize_reply R p2) as [[u3|e3] p3]; cbn [remote sent].
  2:{ eexists false, _. split; [reflexivity|]. now right; right. }
  destruct (list_tools_reply R p3) as [[tools|e4] p4];
    eexists _, _; (split; [reflexivity|]); now right; right.
Qed.

(** X1: a client for which [connect_to_weather_server] has returned [True]
    passes the guard of every operation: its session field is set, and from
    then on none of the four operations raises, whatever the server does. *)
Theorem connected_client_is_usable (R : Remote) (self client : WeatherMCPClient)
    (w : World R) :
  fst (connect_to_weather_server self w) = Returned (true, client) ->
  session client = Some Session
  /\ forall w' : World R,
       (forall location : string,
          exists text : string,
            fst (query_weather client location w') = Returned text)
       /\ (forall latitude longitude : float,
             exists text : string,
               fst (get_weather_forecast client latitude longitude w')
               = Returned text)
       /\ (forall state_code : string,
             exists text : string,
               fst (get_weather_alerts client state_code w') = Returned text)
       /\ exists tools : list Tool,
            fst (list_available_tools client w') = Returned tools.
Proof.
  intros Hconnect.
  destruct (connect_cases R self w) as (connected & self' & Hret & Hcases).
  rewrite Hret in Hconnect. inversion Hconnect; subst connected self'.
  destruct Hcases as [[Hb _]|[[Hb _]|Hc]]; try discriminate Hb. subst client.
  split; [reflexivity|]. intros w'. repeat split.
  - intros location. apply query_weather_returns.
  - intros latitude longitude. rewrite get_weather_forecast_run.
    eexists; reflexivity.
  - intros state_code. rewrite get_weather_alerts_run. eexists; reflexivity.
  - rewrite list_available_tools_run. eexists; reflexivity.
Qed.

Lemma connected_client_is_usable_run :
  session Scripted.connected = Some Session
  /\ (exists text : string,
        fst (query_weather Scripted.connected "Beijing"
               (Scripted.start Scripted.faulty)) = Returned text)
  /\ (exists text : string,
        fst (get_weather_forecast Scripted.connected 39.9042 116.4074
               (Scripted.start Scripted.faulty)) = Returned text)
  /\ (exists text : string,
        fst (get_weather_alerts Scripted.connected "CA"
               (Scripted.start Scripted.faulty)) = Returned text)
  /\ exists tools : list Tool,
       fst (list_available_tools Scripted.connected
              (Scripted.start Scripted.faulty)) = Returned tools.
Proof.
  destruct (connected_client_is_usable Scripted.server new_client
              Scripted.connected (Scripted.start Scripted.weather) eq_refl)
    as [Hsession Hops].
  destruct (Hops (Scripted.start Scripted.faulty))
    as (Hquery & Hforecast & Halerts & Htools).
  split; [exact Hsession|]. split; [exact (Hquery "Beijing")|].
  split; [exact (Hforecast 39.9042%float 116.4074%float)|].
  split; [exact (Halerts "CA")|exact Htools].
Defined.

(** X2: the requests of [connect_to_weather_server] are the first one, two,
    three or four of the set-up sequence (start the process, open the
    session, initialize, list), in this order, and all four when it returns
    [True]: it never calls an operation of the server. *)
Theorem connect_requests (R : Remote) (self : WeatherMCPClient)
    (w : World R) :
  exists n : nat,
    1 <= n <= 4
    /\ sent (snd (connect_to_weather_server self w))
       = (sent w ++
          firstn n
            [StdioClient "uvx"
               ["--from";
                "git+https://github.com/Zero-Hero-ing/Zero-Hero-ing.git";
                "query_weather"];
             OpenSession; Initialize; ListTools])%list
    /\ (if match fst (connect_to_weather_server self w) with
           | Returned (connected, _) => connected
           | Raised _ => false
           end
        then n = 4 else True).
Proof.
  unfold connect_to_weather_server, bind, initialize, list_tools, await.
  destruct (stdio_client_reply R (remote w)) as [[u1|e1] p1]; cbn [remote sent].
  2:{ exists 1. cbn. repeat split; lia. }
  destruct (client_session_reply R p1) as [[u2|e2] p2]; cbn [remote sent].
  2:{ exists 2. cbn. rewrite <- app_assoc. repeat split; lia. }
  destruct (initialize_reply R p2) as [[u3|e3] p3]; cbn [remote sent].
  2:{ exists 3. cbn. rewrite <- !app_assoc. repeat split; lia. }
  destruct (list_tools_reply R p3) as [[tools|e4] p4];
    exists 4; cbn; rewrite <- !app_assoc; repeat split; lia.
Qed.

(** X3: the session field is assigned before the handshake.  When the
    process starts and the session object is created, but the handshake or
    the first listing fails, the method returns [False] with the field set;
    a later [get_weather_alerts] on that client passes the guard and sends
    its call. *)
Theorem connect_failed_handshake_keeps_session (R : Remote)
    (self : WeatherMCPClient) (w : World R) (e : exc)
    (p1 p2 p3 p4 : peer R) :
  stdio_client_reply R (remote w) = (Returned tt, p1) ->
  client_session_reply R p1 = (Returned tt, p2) ->
  initialize_reply R p2 = (Raised e, p3)
  \/ (initialize_reply R p2 = (Returned tt, p3)
      /\ list_tools_reply R p3 = (Raised e, p4)) ->
  exists self' : WeatherMCPClient,
    fst (connect_to_weather_server self w) = Returned (false, self')
    /\ session self' = Some Session
    /\ forall (state_code : string) (w' : World R),
         sent (snd (get_weather_alerts self' state_code w'))
         = (sent w' ++
            [CallTool "get_alerts" [("state", VStr (upper state_code))]])%list.
Proof.
  intros H1 H2 H3.
  exists {| session := Some Session;
            exit_stack := SessionContext :: StdioTransport :: exit_stack self |}.
  split; [|split; [reflexivity|]].
  - unfold connect_to_weather_server, bind, initialize, list_tools, await.
    rewrite H1; cbn [remote sent]. rewrite H2; cbn [remote sent].
    destruct H3 as [H3|[H3 H4]]; rewrite H3; cbn [remote sent];
      [reflexivity|]. now rewrite H4.
  - intros state_code w'. now rewrite get_weather_alerts_run.
Qed.

Lemma connect_failed_handshake_keeps_session_run :
  exists self' : WeatherMCPClient,
    fst (connect_to_weather_server new_client
           (Scripted.start Scripted.no_handshake))
      = Returned (false, self')
    /\ session self' = Some Session
    /\ forall (state_code : string) (w' : World Scripted.server),
         sent (snd (get_weather_alerts self' state_code w'))
         = (sent w' ++
            [CallTool "get_alerts" [("state", VStr (upper state_code))]])%list.
Proof.
  exact (connect_failed_handshake_keeps_session Scripted.server new_client
           (Scripted.start Scripted.no_handshake) Scripted.refused
           Scripted.no_handshake Scripted.no_handshake Scripted.no_handshake
           Scripted.no_handshake eq_refl eq_refl (or_introl eq_refl)).
Defined.




(* ===================================================================== *)
(** ** More on the router *)
(* ===================================================================== *)











(** A request of a classification names an operation that is advertised. *)
Lemma request_of_classify_advertised (coords : dict (float * float))
    (location : string) (names : list string) (tool : string)
    (arguments : dict value) :
  In (CallTool tool arguments)
     (request_of (classify_over coords location names)) ->
  contains tool names = true.
Proof.
  unfold classify_over.
  destruct ((len location =? 2)%nat && isalpha (upper location)) eqn:Hcode;
    cbn [andb].
  - destruct (contains "get_alerts" names) eqn:Halerts.
    + cbn. intros [H|[]]. now inversion H; subst.
    + destruct (dict_get (lower location) coords) as [[lat lon]|];
        [|now cbn].
      destruct (contains "get_forecast" names) eqn:Hforecast; [|now cbn].
      cbn. intros [H|[]]. now inversion H; subst.
  - destruct (dict_get (lower location) coords) as [[lat lon]|]; [|now cbn].
    destruct (contains "get_forecast" names) eqn:Hforecast; [|now cbn].
    cbn. intros [H|[]]. now inversion H; subst.
Qed.

Lemma request_of_at_most_one (q : ResolvedQuery) : length (request_of q) <= 1.
Proof. destruct q; cbn; lia. Qed.

(** The requests of [query_weather], whatever the listing comes to. *)
Lemma query_weather_sent_any (R : Remote) (coords : dict (float * float))
    (s : ClientSession) (stack : list resource) (location : string)
    (w : World R) :
  sent (snd (query_weather_over coords
               {| session := Some s; exit_stack := stack |} location w))
  = (sent w ++ ListTools ::
       match fst (list_tools_reply R (remote w)) with
       | Returned tools =>
           match map name tools with
           | [] => []
           | names => request_of (classify_over coords location names)
           end
       | Raised _ => []
       end)%list.
Proof.
  destruct (list_tools_reply R (remote w)) as [[tools|e] p] eqn:Hlist.
  - now rewrite (query_weather_sent _ _ _ _ _ _ _ Hlist).
  - now rewrite (query_weather_list_fault _ _ _ _ _ _ _ Hlist).
Qed.

Lemma skipn_length_app {A : Type} (l l' : list A) :
  skipn (length l) (l ++ l') = l'.
Proof. induction l as [|x l IH]; cbn; [reflexivity|exact IH]. Qed.

(** X6: [query_weather] asks at most two things of the server: the listing,
    always first, and then at most one call; a call it makes names an
    operation that the listing has just advertised.  It never calls an
    operation that the server does not offer. *)
Theorem query_weather_calls_only_advertised (R : Remote) (s : ClientSession)
    (stack : list resource) (location : string) (w : World R) :
  exists calls : list request,
    sent (snd (query_weather {| session := Some s; exit_stack := stack |}
                 location w))
    = (sent w ++ ListTools :: calls)%list
    /\ length calls <= 1
    /\ forall (tool : string) (arguments : dict value),
         In (CallTool tool arguments) calls ->
         exists (tools : list Tool) (p : peer R),
           list_tools_reply R (remote w) = (Returned tools, p)
           /\ contains tool (map name tools) = true.
Proof.
  unfold query_weather. rewrite query_weather_sent_any.
  destruct (list_tools_reply R (remote w)) as [[tools|e] p]; cbn [fst].
  - exists match map name tools with
           | [] => []
           | names => request_of (classify_over location_coords location names)
           end.
    split; [reflexivity|].
    destruct (map name tools) as [|n names] eqn:Hnames.
    + split; [cbn; lia|]. intros tool arguments [].
    + split; [apply request_of_at_most_one|].
      intros tool arguments Hin. exists tools, p. split; [reflexivity|].
      rewrite Hnames. eapply request_of_classify_advertised, Hin.
  - exists []. split; [reflexivity|]. split; [cbn; lia|].
    intros tool arguments [].
Qed.


(** X8: the direct operations do not look at the listing.  Against a server
    that does not advertise the forecast operation, [get_weather_forecast]
    still sends its one call, while [query_weather] sends no forecast call
    for any text. *)
Theorem direct_forecast_ignores_listing (R : Remote) (s : ClientSession)
    (stack : list resource) (w : World R) (tools : list Tool) (p : peer R) :
  list_tools_reply R (remote w) = (Returned tools, p) ->
  contains "get_forecast" (map name tools) = false ->
  (forall latitude longitude : float,
     sent (snd (get_weather_forecast
                  {| session := Some s; exit_stack := stack |}
                  latitude longitude w))
     = (sent w ++
        [CallTool "get_forecast"
           [("latitude", VFloat latitude);
            ("longitude", VFloat longitude)]])%list)
  /\ (forall (location : string) (arguments : dict value),
        ~ In (CallTool "get_forecast" arguments)
            (skipn (length (sent w))
               (sent (snd (query_weather
                             {| session := Some s; exit_stack := stack |}
                             location w))))).
Proof.
  intros Hlist Hnot. split.
  - intros latitude longitude. now rewrite get_weather_forecast_run.
  - intros location arguments Hin. unfold query_weather in Hin.
    rewrite (query_weather_sent _ _ _ _ _ _ _ Hlist), skipn_length_app in Hin.
    destruct Hin as [Hin|Hin]; [discriminate Hin|].
    destruct (map name tools) as [|n names]; [exact Hin|].
    apply request_of_classify_advertised in Hin. congruence.
Qed.

Lemma direct_forecast_ignores_listing_run :
  sent (snd (get_weather_forecast Scripted.connected 39.9042 116.4074
               (Scripted.start (Scripted.only "get_alerts"))))
    = [CallTool "get_forecast"
         [("latitude", VFloat 39.9042); ("longitude", VFloat 116.4074)]]
  /\ ~ In (CallTool "get_forecast"
             [("latitude", VFloat 39.9042); ("longitude", VFloat 116.4074)])
          (skipn (length (sent (Scripted.start (Scripted.only "get_alerts"))))
             (sent (snd (query_weather Scripted.connected "Beijing"
                           (Scripted.start (Scripted.only "get_alerts")))))).
Proof.
  destruct (direct_forecast_ignores_listing Scripted.server Session
              [SessionContext; StdioTransport]
              (Scripted.start (Scripted.only "get_alerts"))
              [Scripted.tool "get_alerts"] (Scripted.only "get_alerts")
              eq_refl eq_refl) as [Hdirect Hquery].
  split.
  - exact (Hdirect 39.9042%float 116.4074%float).
  - exact (Hquery "Beijing"
             [("latitude", VFloat 39.9042); ("longitude", VFloat 116.4074)]).
Defined.

(** The table has no key twice: a lookup finds the entry itself. *)
Lemma location_coords_lookup (k : string) (lat lon : float) :
  In (k, (lat, lon)) location_coords ->
  dict_get k location_coords = Some (lat, lon).
Proof.
  unfold location_coords. intros Hin.
  repeat (destruct Hin as [Hin|Hin]; [now inversion Hin|]).
  destruct Hin.
Qed.

(** X9: every entry of the table can be reached.  For each of the ten
    entries, a text that lower-cases to its key, written in any mix of
    cases, is resolved to the forecast at the coordinates of that entry when
    the forecast operation is advertised: no entry is shadowed by another or
    caught by the state-code rule. *)
Theorem every_city_reachable (text k : string) (lat lon : float)
    (names : list string) :
  In (k, (lat, lon)) location_coords ->
  lower text = k ->
  contains "get_forecast" names = true ->
  classify_and_resolve text names = ForecastAt lat lon.
Proof.
  intros Hin Hlower Hadv. apply classify_city; [|exact Hadv].
  rewrite Hlower. now apply location_coords_lookup.
Qed.

Lemma every_city_reachable_TOKYO :
  classify_and_resolve "ToKyO" ["get_forecast"] = ForecastAt 35.6762 139.6503.
Proof.
  apply (every_city_reachable "ToKyO" "tokyo" 35.6762 139.6503
           ["get_forecast"]).
  - cbn. do 3 right. now left.
  - reflexivity.
  - reflexivity.
Defined.

Lemma forecast_request_from_table (coords : dict (float * float))
    (location : string) (names : list string) (lat lon : float) :
  In (CallTool "get_forecast"
        [("latitude", VFloat lat); ("longitude", VFloat lon)])
     (request_of (classify_over coords location names)) ->
  dict_get (lower location) coords = Some (lat, lon).
Proof.
  unfold classify_over.
  destruct ((len location =? 2)%nat && isalpha (upper location)
            && contains "get_alerts" names).
  - cbn. intros [H|[]]. discriminate H.
  - destruct (dict_get (lower location) coords) as [[lat' lon']|];
      [|now cbn].
    destruct (contains "get_forecast" names); [|now cbn].
    cbn. intros [H|[]]. now inversion H.
Qed.

Lemma location_coords_in_range (k : string) (lat lon : float) :
  dict_get k location_coords = Some (lat, lon) ->
  (PrimFloat.leb (-90) lat && PrimFloat.leb lat 90
   && PrimFloat.leb (-180) lon && PrimFloat.leb lon 180)%bool = true.
Proof.
  unfold location_coords. cbn [dict_get].
  repeat match goal with
  | |- (if String.eqb k ?key then _ else _) = _ -> _ =>
      destruct (String.eqb k key);
      [ intros H; inversion H; subst; vm_compute; reflexivity | ]
  end.
  discriminate.
Qed.

(** X10: the coordinates of a forecast call that [query_weather] sends are
    a latitude between -90 and 90 and a longitude between -180 and 180,
    whatever the text and whatever the server advertises. *)
Theorem query_weather_coordinates_in_range (R : Remote) (s : ClientSession)
    (stack : list resource) (location : string) (w : World R)
    (lat lon : float) :
  In (CallTool "get_forecast"
        [("latitude", VFloat lat); ("longitude", VFloat lon)])
     (skipn (length (sent w))
        (sent (snd (query_weather
                      {| session := Some s; exit_stack := stack |}
                      location w)))) ->
  (PrimFloat.leb (-90) lat && PrimFloat.leb lat 90
   && PrimFloat.leb (-180) lon && PrimFloat.leb lon 180)%bool = true.
Proof.
  unfold query_weather. rewrite query_weather_sent_any, skipn_length_app.
  intros [Hin|Hin]; [discriminate Hin|].
  destruct (fst (list_tools_reply R (remote w))) as [tools|e];
    [|destruct Hin].
  destruct (map name tools) as [|n names]; [destruct Hin|].
  apply forecast_request_from_table in Hin.
  exact (location_coords_in_range _ _ _ Hin).
Qed.

Lemma query_weather_coordinates_in_range_Sydney :
  (PrimFloat.leb (-90) (-33.8688) && PrimFloat.leb (-33.8688) 90
   && PrimFloat.leb (-180) 151.2093 && PrimFloat.leb 151.2093 180)%bool = true.
Proof.
  apply (query_weather_coordinates_in_range Scripted.server Session
           [SessionContext; StdioTransport] "Sydney"
           (Scripted.start Scripted.weather)).
  cbn. right. now left.
Defined.

(* ===================================================================== *)
(** ** One turn of the interactive loop *)
(* ===================================================================== *)

Lemma startswith_app (s prefix : string) :
  startswith s prefix = true -> exists rest : string, s = prefix ++ rest.
Proof.
  revert s. induction prefix as [|c prefix IH]; intros s H.
  - now exists s.
  - destruct s as [|d s]; [discriminate H|]. cbn in H.
    apply andb_true_iff in H. destruct H as [Hc Hs].
    apply Ascii.eqb_eq in Hc. subst d.
    destruct (IH _ Hs) as [rest ->]. now exists rest.
Qed.

Lemma nonempty_lower (s : string) : nonempty (lower s) = nonempty s.
Proof. now destruct s. Qed.

(** Case analysis along the tests of a turn, in the order of the source. *)
Ltac break_turn :=
  repeat first
    [ match goal with
      | |- context [if (?a =? ?b)%string then _ else _] =>
          destruct (a =? b)%string eqn:?
      | |- context [if startswith ?a ?b then _ else _] =>
          destruct (startswith a b) eqn:?
      | |- context [if nonempty ?a then _ else _] =>
          destruct (nonempty a) eqn:?
      | |- context [match split ?a with _ => _ end] =>
          destruct (split a) as [|? [|? [|? [|? ?]]]] eqn:?
      | |- context [match ?x with Some _ => _ | None => _ end] =>
          destruct x eqn:?
      | |- context [list_available_tools ?c ?w] =>
          destruct (list_available_tools c w) as [[?|?] ?] eqn:?
      | |- context [get_weather_forecast ?c ?a ?b ?w] =>
          destruct (get_weather_forecast c a b w) as [[?|?] ?] eqn:?
      | |- context [get_weather_alerts ?c ?a ?w] =>
          destruct (get_weather_alerts c a w) as [[?|?] ?] eqn:?
      | |- context [query_weather ?c ?a ?w] =>
          destruct (query_weather c a w) as [[?|?] ?] eqn:?
      end
    | progress cbv beta iota ].

(** A turn of the loop never raises, with or without a session and whatever
    the server does: each [Exception] of the read or of an operation ends up
    as a printed text. *)
Lemma chat_turn_returns (R : Remote) (to_float : string -> option float)
    (self : WeatherMCPClient) (r : read) (w : World R) :
  exists (out : list string) (c : control),
    fst (chat_turn to_float self r w) = Returned (out, c).
Proof.
  destruct r as [raw|e|]; cbn [chat_turn];
    [|eexists _, _; reflexivity|eexists _, _; reflexivity].
  unfold try_except.
  match goal with
  | |- context [match ?body w with _ => _ end] =>
      destruct (body w) as [[[out c]|e] w']
  end; eexists _, _; reflexivity.
Qed.

(** A turn ends the loop exactly when the read is the interrupt key or a
    line that is "quit" once stripped and lower-cased; such a turn asks
    nothing of the server. *)
Lemma chat_turn_break_iff (R : Remote) (to_float : string -> option float)
    (self : WeatherMCPClient) (r : read) (w : World R) :
  ((exists out : list string,
      fst (chat_turn to_float self r w) = Returned (out, Break))
   <-> (r = Interrupt
        \/ exists raw : string, r = Line raw /\ lower (strip raw) = "quit"))
  /\ (forall out : list string,
        fst (chat_turn to_float self r w) = Returned (out, Break) ->
        snd (chat_turn to_float self r w) = w).
Proof.
  destruct r as [raw|e|].
  - cbn [chat_turn].
    destruct (lower (strip raw) =? "quit")%string eqn:Hquit.
    + split; [|reflexivity]. split.
      * intros _. right. exists raw. split; [reflexivity|].
        now apply String.eqb_eq.
      * intros _. eexists. reflexivity.
    + cbv iota.
      match goal with
      | |- context [fst ?turn = _] =>
          assert (Hgoes_on : forall out : list string,
                    fst turn <> Returned (out, Break))
      end.
      { intros out.
        unfold try_except, bind, try_except_class, float_, ret, raise.
        break_turn; cbn [fst]; congruence. }
      split.
      * split.
        -- intros [out Hout]. now elim (Hgoes_on out).
        -- intros [H|(raw' & Hraw & Hq)]; [discriminate H|].
           inversion Hraw; subst raw'.
           apply String.eqb_eq in Hq. congruence.
      * intros out Hout. now elim (Hgoes_on out).
  - cbn [chat_turn]. split; [|intros out H; discriminate H]. split.
    + intros [out H]. discriminate H.
    + intros [H|(raw & H & _)]; discriminate H.
  - cbn [chat_turn]. split; [|reflexivity]. split.
    + intros _. now left.
    + intros _. eexists. reflexivity.
Qed.

(** X11: the forecast command.  A line that starts with "forecast " (in any
    case, once stripped) never leads to a listing or a classification.  With
    exactly two further tokens that [float()] accepts, the turn sends the one
    [get_forecast] call with the two numbers and prints its result; with
    two tokens of which one is not a number it prints the invalid-coordinates
    text; with any other number of tokens it prints the usage text; in the
    last two cases nothing is sent. *)
Theorem chat_turn_forecast (R : Remote) (to_float : string -> option float)
    (s : ClientSession) (stack : list resource) (raw : string)
    (w : World R) :
  startswith (lower (strip raw)) "forecast " = true ->
  chat_turn to_float {| session := Some s; exit_stack := stack |}
    (Line raw) w
  = match split (strip raw) with
    | [_; part1; part2] =>
        match to_float part1, to_float part2 with
        | Some lat, Some lon =>
            (Returned
               ([newline ++ "📊 Weather Forecast:" ++ newline
                 ++ match fst (call_tool_reply R "get_forecast"
                                 [("latitude", VFloat lat);
                                  ("longitude", VFloat lon)] (remote w)) with
                    | Returned r => result_text r
                    | Raised e => "❌ Error getting forecast: " ++ str e
                    end],
                Continue),
             {| remote := snd (call_tool_reply R "get_forecast"
                                 [("latitude", VFloat lat);
                                  ("longitude", VFloat lon)] (remote w));
                sent := sent w ++
                        [CallTool "get_forecast"
                           [("latitude", VFloat lat);
                            ("longitude", VFloat lon)]] |})
        | _, _ =>
            (Returned
               (["❌ Invalid coordinates. Use: forecast <latitude> <longitude>"],
                Continue), w)
        end
    | _ =>
        (Returned (["❌ Usage: forecast <latitude> <longitude>"], Continue), w)
    end.
Proof.
  intros Hcmd. cbn [chat_turn].
  destruct (startswith_app _ _ Hcmd) as [rest Hrest].
  assert (Hquit : (lower (strip raw) =? "quit")%string = false)
    by now rewrite Hrest.
  assert (Htools : (lower (strip raw) =? "tools")%string = false)
    by now rewrite Hrest.
  assert (Hhelp : (lower (strip raw) =? "help")%string = false)
    by now rewrite Hrest.
  rewrite Hquit, Htools, Hhelp, Hcmd.
  destruct (split (strip raw)) as [|cmd [|part1 [|part2 [|part3 parts]]]];
    try reflexivity.
  unfold try_except, try_except_class, bind, float_, ret, raise.
  destruct (to_float part1) as [lat|]; [|reflexivity].
  destruct (to_float part2) as [lon|]; [|reflexivity].
  now rewrite get_weather_forecast_run.
Qed.

Lemma chat_turn_forecast_run :
  chat_turn Scripted.to_float Scripted.connected
    (Line " forecast 40.7128 -74.006 ") (Scripted.start Scripted.weather)
  = (Returned ([newline ++ "📊 Weather Forecast:" ++ newline
                ++ "Sunny" ++ newline ++ "High 21"], Continue),
     {| remote := Scripted.weather : peer Scripted.server;
        sent := [CallTool "get_forecast"
                   [("latitude", VFloat 40.7128);
                    ("longitude", VFloat (-74.006))]] |}).
Proof.
  exact (chat_turn_forecast Scripted.server Scripted.to_float Session
           [SessionContext; StdioTransport] " forecast 40.7128 -74.006 "
           (Scripted.start Scripted.weather) eq_refl).
Defined.

(** X12: the alerts command.  A line that starts with "alerts " (in any
    case, once stripped) with exactly one further token sends the one
    [get_alerts] call with that token upper-cased, whatever the token is,
    and prints the result; with any other number of tokens it prints the
    usage text and sends nothing.  It never leads to a listing. *)
Theorem chat_turn_alerts (R : Remote) (to_float : string -> option float)
    (s : ClientSession) (stack : list resource) (raw : string)
    (w : World R) :
  startswith (lower (strip raw)) "alerts " = true ->
  chat_turn to_float {| session := Some s; exit_stack := stack |}
    (Line raw) w
  = match split (strip raw) with
    | [_; state] =>
        (Returned
           ([newline ++ "🚨 Weather Alerts:" ++ newline
             ++ match fst (call_tool_reply R "get_alerts"
                             [("state", VStr (upper state))] (remote w)) with
                | Returned r => result_text r
                | Raised e => "❌ Error getting alerts: " ++ str e
                end],
            Continue),
         {| remote := snd (call_tool_reply R "get_alerts"
                             [("state", VStr (upper state))] (remote w));
            sent := sent w ++
                    [CallTool "get_alerts" [("state", VStr (upper state))]] |})
    | _ =>
        (Returned (["❌ Usage: alerts <state_code> (e.g., alerts CA)"],
                   Continue), w)
    end.
Proof.
  intros Hcmd. cbn [chat_turn].
  destruct (startswith_app _ _ Hcmd) as [rest Hrest].
  assert (Hquit : (lower (strip raw) =? "quit")%string = false)
    by now rewrite Hrest.
  assert (Htools : (lower (strip raw) =? "tools")%string = false)
    by now rewrite Hrest.
  assert (Hhelp : (lower (strip raw) =? "help")%string = false)
    by now rewrite Hrest.
  assert (Hforecast : startswith (lower (strip raw)) "forecast " = false)
    by now rewrite Hrest.
  rewrite Hquit, Htools, Hhelp, Hforecast, Hcmd.
  destruct (split (strip raw)) as [|cmd [|state [|part parts]]];
    try reflexivity.
  unfold try_except, bind, ret.
  now rewrite get_weather_alerts_run.
Qed.

Lemma chat_turn_alerts_run :
  chat_turn Scripted.to_float Scripted.connected
    (Line "ALERTS florida") (Scripted.start Scripted.weather)
  = (Returned ([newline ++ "🚨 Weather Alerts:" ++ newline
                ++ "Sunny" ++ newline ++ "High 21"], Continue),
     {| remote := Scripted.weather : peer Scripted.server;
        sent := [CallTool "get_alerts" [("state", VStr "FLORIDA")]] |}).
Proof.
  exact (chat_turn_alerts Scripted.server Scripted.to_float Session
           [SessionContext; StdioTransport] "ALERTS florida"
           (Scripted.start Scripted.weather) eq_refl).
Defined.

(** A text that lower-cases to a key of the table is none of the commands. *)
Lemma city_is_no_command (u : string) (v : float * float) :
  dict_get (lower u) location_coords = Some v ->
  (lower u =? "quit")%string = false
  /\ (lower u =? "tools")%string = false
  /\ (lower u =? "help")%string = false
  /\ startswith (lower u) "forecast " = false
  /\ startswith (lower u) "alerts " = false
  /\ nonempty u = true.
Proof.
  rewrite <- (nonempty_lower u). generalize (lower u) as k. intros k.
  unfold location_coords. cbn [dict_get].
  repeat match goal with
  | |- (if String.eqb k ?key then _ else _) = _ -> _ =>
      let E := fresh "E" in
      destruct (String.eqb k key) eqn:E;
      [ apply String.eqb_eq in E; subst k; intros _;
        repeat split; reflexivity | ]
  end.
  discriminate.
Qed.

Lemma chat_turn_location (R : Remote) (to_float : string -> option float)
    (self : WeatherMCPClient) (raw : string) (w : World R) :
  (lower (strip raw) =? "quit")%string = false ->
  (lower (strip raw) =? "tools")%string = false ->
  (lower (strip raw) =? "help")%string = false ->
  startswith (lower (strip raw)) "forecast " = false ->
  startswith (lower (strip raw)) "alerts " = false ->
  nonempty (strip raw) = true ->
  chat_turn to_float self (Line raw) w
  = match query_weather self (strip raw) w with
    | (Returned result, w') =>
        (Returned ([newline ++ "📊 Weather Result:" ++ newline ++ result],
                   Continue), w')
    | (Raised e, w') => (Returned (["❌ Error: " ++ str e], Continue), w')
    end.
Proof.
  intros Hquit Htools Hhelp Hforecast Halerts Hsome. cbn [chat_turn].
  rewrite Hquit, Htools, Hhelp, Hforecast, Halerts, Hsome.
  unfold try_except, bind, ret.
  now destruct (query_weather self (strip raw) w) as [[result|e] w'].
Qed.

Lemma query_weather_city_run (R : Remote) (s : ClientSession)
    (stack : list resource) (location : string) (w : World R)
    (tools : list Tool) (p : peer R) (lat lon : float) :
  list_tools_reply R (remote w) = (Returned tools, p) ->
  dict_get (lower location) location_coords = Some (lat, lon) ->
  contains "get_forecast" (map name tools) = true ->
  fst (query_weather {| session := Some s; exit_stack := stack |} location w)
  = Returned
      match fst (call_tool_reply R "get_forecast"
                   [("latitude", VFloat lat); ("longitude", VFloat lon)]
                   p) with
      | Returned r => result_text r
      | Raised e => "❌ Error querying weather: " ++ str e
      end
  /\ sent (snd (query_weather {| session := Some s; exit_stack := stack |}
                  location w))
     = (sent w ++
        [ListTools;
         CallTool "get_forecast"
           [("latitude", VFloat lat); ("longitude", VFloat lon)]])%list.
Proof.
  intros Hlist Hkey Hadv.
  pose proof (classify_city _ _ _ _ Hkey Hadv) as Hq.
  unfold classify_and_resolve in Hq. unfold query_weather. split.
  - rewrite (query_weather_listed _ _ _ _ _ _ _ Hlist).
    destruct (map name tools) as [|n names]; [discriminate Hadv|].
    cbv beta iota zeta. rewrite Hq. now apply invoke_call.
  - rewrite (query_weather_sent _ _ _ _ _ _ _ Hlist).
    destruct (map name tools) as [|n names]; [discriminate Hadv|].
    cbv beta iota zeta. now rewrite Hq.
Qed.

(** X13: in the interactive loop a city may be typed with surrounding
    whitespace and in any case.  A line that equals a key of the table once
    stripped and lower-cased leads, when the forecast operation is
    advertised, to the listing and to the one [get_forecast] call with the
    coordinates of that key, and the turn prints the result. *)
Theorem chat_turn_city (R : Remote) (to_float : string -> option float)
    (s : ClientSession) (stack : list resource) (raw : string)
    (w : World R) (tools : list Tool) (p : peer R) (lat lon : float) :
  list_tools_reply R (remote w) = (Returned tools, p) ->
  dict_get (lower (strip raw)) location_coords = Some (lat, lon) ->
  contains "get_forecast" (map name tools) = true ->
  fst (chat_turn to_float {| session := Some s; exit_stack := stack |}
         (Line raw) w)
  = Returned
      ([newline ++ "📊 Weather Result:" ++ newline
        ++ match fst (call_tool_reply R "get_forecast"
                        [("latitude", VFloat lat); ("longitude", VFloat lon)]
                        p) with
           | Returned r => result_text r
           | Raised e => "❌ Error querying weather: " ++ str e
           end],
       Continue)
  /\ sent (snd (chat_turn to_float
                  {| session := Some s; exit_stack := stack |} (Line raw) w))
     = (sent w ++
        [ListTools;
         CallTool "get_forecast"
           [("latitude", VFloat lat); ("longitude", VFloat lon)]])%list.
Proof.
  intros Hlist Hkey Hadv.
  destruct (city_is_no_command _ _ Hkey)
    as (Hquit & Htools & Hhelp & Hforecast & Halerts & Hsome).
  rewrite (chat_turn_location _ _ _ _ _
             Hquit Htools Hhelp Hforecast Halerts Hsome).
  destruct (query_weather_city_run R s stack _ w tools p lat lon
              Hlist Hkey Hadv) as [Hfst Hsent].
  destruct (query_weather {| session := Some s; exit_stack := stack |}
              (strip raw) w) as [[result|e] w'];
    cbn [fst snd] in *; [|discriminate Hfst].
  split; [|exact Hsent]. now inversion Hfst.
Qed.

Lemma chat_turn_city_run :
  fst (chat_turn Scripted.to_float Scripted.connected
         (Line "  Beijing ") (Scripted.start Scripted.weather))
  = Returned ([newline ++ "📊 Weather Result:" ++ newline
               ++ "Sunny" ++ newline ++ "High 21"], Continue)
  /\ sent (snd (chat_turn Scripted.to_float Scripted.connected
                  (Line "  Beijing ") (Scripted.start Scripted.weather)))
     = [ListTools;
        CallTool "get_forecast"
          [("latitude", VFloat 39.9042); ("longitude", VFloat 116.4074)]].
Proof.
  exact (chat_turn_city Scripted.server Scripted.to_float Session
           [SessionContext; StdioTransport] "  Beijing "
           (Scripted.start Scripted.weather)
           [Scripted.tool "get_alerts"; Scripted.tool "get_forecast"]
           Scripted.weather 39.9042 116.4074 eq_refl eq_refl eq_refl).
Defined.

(** X14: without a session the loop asks nothing of the server, whatever is
    typed, and a city line prints the message of the guard as an error text:
    the [RuntimeError] of the operation is caught by the loop, which goes
    on. *)
Theorem chat_turn_unconnected (R : Remote)
    (to_float : string -> option float) (self : WeatherMCPClient)
    (w : World R) :
  session self = None ->
  (forall r : read, snd (chat_turn to_float self r w) = w)
  /\ (forall (raw : string) (v : float * float),
        dict_get (lower (strip raw)) location_coords = Some v ->
        fst (chat_turn to_float self (Line raw) w)
        = Returned
            (["❌ Error: Not connected to server. Call connect_to_weather_server() first."],
             Continue)).
Proof.
  intros Hnone. destruct self as [sess stack]. cbn in Hnone. subst sess.
  split.
  - intros [raw|e|]; [|reflexivity|reflexivity]. cbn [chat_turn].
    unfold list_available_tools, get_weather_forecast, get_weather_alerts,
      query_weather, query_weather_over. cbn [session].
    unfold try_except, try_except_class, bind, float_, ret, raise.
    break_turn; reflexivity.
  - intros raw v Hkey.
    destruct (city_is_no_command _ _ Hkey)
      as (Hquit & Htools & Hhelp & Hforecast & Halerts & Hsome).
    now rewrite (chat_turn_location _ _ _ _ _
                   Hquit Htools Hhelp Hforecast Halerts Hsome).
Qed.

Lemma chat_turn_unconnected_run :
  snd (chat_turn Scripted.to_float new_client (Line "alerts CA")
         (Scripted.start Scripted.weather))
    = Scripted.start Scripted.weather
  /\ fst (chat_turn Scripted.to_float new_client (Line "Miami")
            (Scripted.start Scripted.weather))
     = Returned
         (["❌ Error: Not connected to server. Call connect_to_weather_server() first."],
          Continue).
Proof.
  destruct (chat_turn_unconnected Scripted.server Scripted.to_float
              new_client (Scripted.start Scripted.weather) eq_refl)
    as [Hnothing Hcity].
  split.
  - exact (Hnothing (Line "alerts CA")).
  - exact (Hcity "Miami" (25.7617, -80.1918)%float eq_refl).
Defined.

(* ===================================================================== *)
(** ** The interactive loop *)
(* ===================================================================== *)

Lemma chat_loop_cons (R : Remote) (to_float : string -> option float)
    (self : WeatherMCPClient) (r : read) (rest : list read) (w : World R) :
  chat_loop to_float self (r :: rest) w
  = match chat_turn to_float self r w with
    | (Returned (out, Break), w1) => (Returned (out, Break), w1)
    | (Returned (out, Continue), w1) =>
        match chat_loop to_float self rest w1 with
        | (Returned more, w2) =>
            (Returned ((out ++ fst more)%list, snd more), w2)
        | (Raised e, w2) => (Raised e, w2)
        end
    | (Raised e, w1) => (Raised e, w1)
    end.
Proof.
  cbn [chat_loop]. unfold bind, ret.
  destruct (chat_turn to_float self r w) as [[[out []]|e] w1];
    reflexivity.
Qed.

(** The loop never raises, and it ends exactly when one of the reads is the
    interrupt key or a line that is "quit" once stripped and lower-cased. *)
Lemma chat_loop_control (R : Remote) (to_float : string -> option float)
    (self : WeatherMCPClient) (reads : list read) (w : World R) :
  exists (out : list string) (c : control),
    fst (chat_loop to_float self reads w) = Returned (out, c)
    /\ (c = Break
        <-> Exists (fun r => r = Interrupt
                             \/ exists raw : string,
                                  r = Line raw
                                  /\ lower (strip raw) = "quit") reads).
Proof.
  revert w. induction reads as [|r rest IH]; intros w.
  - exists [], Continue. split; [reflexivity|]. split.
    + discriminate.
    + intros H. inversion H.
  - rewrite chat_loop_cons.
    destruct (chat_turn_returns R to_float self r w) as (out & c & Hturn).
    destruct (chat_turn_break_iff R to_float self r w) as [Hbreak _].
    destruct (chat_turn to_float self r w) as [o w1]. cbn [fst] in *.
    subst o. destruct c.
    + destruct (IH w1) as (more & c' & Hmore & Hiff).
      destruct (chat_loop to_float self rest w1) as [o w2]. cbn [fst] in *.
      subst o. cbn [fst snd]. exists (out ++ more)%list, c'.
      split; [reflexivity|]. rewrite Hiff. split.
      * intros H. now apply Exists_cons_tl.
      * intros H. inversion H as [? ? Hr|? ? Hrest]; subst; [|exact Hrest].
        apply Hbreak in Hr. destruct Hr as [out' Hr]. discriminate Hr.
    + exists out, Break. split; [reflexivity|]. split; [|reflexivity].
      intros _. apply Exists_cons_hd. apply Hbreak. now exists out.
Qed.

(** X16: what is typed after the read that ends the loop is never read:
    the run of the loop is the same with and without it. *)
Theorem chat_loop_stops_reading (R : Remote)
    (to_float : string -> option float) (self : WeatherMCPClient)
    (before after : list read) (r : read) (w : World R) :
  r = Interrupt \/ (exists raw : string,
                      r = Line raw /\ lower (strip raw) = "quit") ->
  chat_loop to_float self (before ++ r :: after) w
  = chat_loop to_float self (before ++ [r]) w.
Proof.
  intros Hr. revert w. induction before as [|r0 before IH]; intros w.
  - cbn [app]. rewrite !chat_loop_cons.
    destruct (chat_turn_break_iff R to_float self r w) as [Hbreak _].
    apply Hbreak in Hr. destruct Hr as [out Hout].
    destruct (chat_turn to_float self r w) as [o w1]. cbn [fst] in Hout.
    now subst o.
  - cbn [app]. rewrite !chat_loop_cons.
    destruct (chat_turn to_float self r0 w) as [[[out []]|e] w1];
      try reflexivity.
    now rewrite IH.
Qed.

Lemma chat_loop_stops_reading_run :
  chat_loop Scripted.to_float Scripted.connected
    [Line "help"; Line " QUIT "; Line "Beijing"; Line "alerts CA"]
    (Scripted.start Scripted.weather)
  = chat_loop Scripted.to_float Scripted.connected
      [Line "help"; Line " QUIT "] (Scripted.start Scripted.weather).
Proof.
  exact (chat_loop_stops_reading Scripted.server Scripted.to_float
           Scripted.connected [Line "help"] [Line "Beijing"; Line "alerts CA"]
           (Line " QUIT ") (Scripted.start Scripted.weather)
           (or_intror (ex_intro _ " QUIT " (conj eq_refl eq_refl)))).
Defined.

(** X17: the end of the input does not end the loop.  A read that raises
    (as [input()] does at the end of the input, each time it is called) is
    printed as an error text and the loop reads again: after any number of
    such reads the loop is still at its prompt and has asked nothing of the
    server. *)
Theorem chat_loop_read_faults (R : Remote)
    (to_float : string -> option float) (self : WeatherMCPClient)
    (e : exc) (n : nat) (w : World R) :
  chat_loop to_float self (repeat (ReadFault e) n) w
  = (Returned (repeat ("❌ Error: " ++ str e) n, Continue), w).
Proof.
  induction n as [|n IH]; [reflexivity|].
  cbn [repeat]. rewrite chat_loop_cons. cbn [chat_turn]. unfold ret.
  now rewrite IH.
Qed.

(** X15: [interactive_chat] never raises.  It prints its banner first, and
    it returns exactly when one of the reads is the interrupt key or a line
    that is "quit" once stripped and lower-cased: no other line, no failure
    of a read and no failure of an operation makes it return. *)
Theorem interactive_chat_ends_iff (R : Remote)
    (to_float : string -> option float) (self : WeatherMCPClient)
    (reads : list read) (w : World R) :
  exists (out : list string) (c : control),
    fst (interactive_chat to_float self reads w)
      = Returned ((chat_banner ++ out)%list, c)
    /\ (c = Break
        <-> Exists (fun r => r = Interrupt
                             \/ exists raw : string,
                                  r = Line raw
                                  /\ lower (strip raw) = "quit") reads).
Proof.
  destruct (chat_loop_control R to_float self reads w)
    as (out & c & Hloop & Hiff).
  exists out, c. split; [|exact Hiff].
  unfold interactive_chat, bind, ret.
  destruct (chat_loop to_float self reads w) as [o w']. cbn [fst] in Hloop.
  now subst o.
Qed.

(* ===================================================================== *)
(** ** The entry points *)
(* ===================================================================== *)






(* ===================================================================== *)
(** ** The demonstration run *)
(* ===================================================================== *)

Section Example.

Context {R : Remote}.
Variables (s : ClientSession) (stack : list resource).

Local Abbreviation self := {| session := Some s; exit_stack := stack |}.





End Example.


(* ===================================================================== *)
(** ** Lines that the loop answers without a weather operation *)
(* ===================================================================== *)

(** X22: a blank line (empty once stripped) and the help command are
    answered by the loop itself, for every client, connected or not: the
    reminder, respectively the eight help texts, are printed, nothing is
    asked of the server, and the loop goes on. *)
Theorem chat_turn_blank_or_help (R : Remote)
    (to_float : string -> option float) (self : WeatherMCPClient)
    (raw : string) (w : World R) :
  strip raw = "" \/ lower (strip raw) = "help" ->
  chat_turn to_float self (Line raw) w
  = (Returned
       (if nonempty (strip raw) then help_lines
        else ["Please enter a location or command. Type 'help' for available commands."],
        Continue), w).
Proof.
  intros [Hblank|Hhelp]; cbn [chat_turn].
  - now rewrite Hblank.
  - rewrite Hhelp. rewrite <- (nonempty_lower (strip raw)), Hhelp.
    reflexivity.
Qed.

Lemma chat_turn_blank_or_help_run :
  chat_turn Scripted.to_float new_client (Line "   ")
    (Scripted.start Scripted.weather)
    = (Returned
         (["Please enter a location or command. Type 'help' for available commands."],
          Continue), Scripted.start Scripted.weather)
  /\ chat_turn Scripted.to_float new_client (Line " HELP ")
       (Scripted.start Scripted.weather)
     = (Returned (help_lines, Continue), Scripted.start Scripted.weather).
Proof.
  split.
  - exact (chat_turn_blank_or_help Scripted.server Scripted.to_float
             new_client "   " (Scripted.start Scripted.weather)
             (or_introl eq_refl)).
  - exact (chat_turn_blank_or_help Scripted.server Scripted.to_float
             new_client " HELP " (Scripted.start Scripted.weather)
             (or_intror eq_refl)).
Defined.

(** X23: the tools command on an established session sends the listing and
    nothing else, and the loop goes on whether the listing succeeds or
    fails; the loop itself prints nothing for it. *)
Theorem chat_turn_tools (R : Remote) (to_float : string -> option float)
    (s : ClientSession) (stack : list resource) (raw : string)
    (w : World R) :
  lower (strip raw) = "tools" ->
  chat_turn to_float {| session := Some s; exit_stack := stack |}
    (Line raw) w
  = (Returned ([], Continue),
     {| remote := snd (list_tools_reply R (remote w));
        sent := sent w ++ [ListTools] |}).
Proof.
  intros Htools. cbn [chat_turn]. rewrite Htools.
  change (("tools" =? "quit")%string) with false.
  change (("tools" =? "tools")%string) with true. cbv iota.
  unfold try_except, bind, ret. now rewrite list_available_tools_run.
Qed.

Lemma chat_turn_tools_run :
  chat_turn Scripted.to_float Scripted.connected (Line "Tools")
    (Scripted.start Scripted.unlisted)
  = (Returned ([], Continue),
     {| remote := Scripted.unlisted : peer Scripted.server;
        sent := [ListTools] |}).
Proof.
  exact (chat_turn_tools Scripted.server Scripted.to_float Session
           [SessionContext; StdioTransport] "Tools"
           (Scripted.start Scripted.unlisted) eq_refl).
Defined.
